(** * pdf-grader: document grading glue over a generative-language API

    A shallow embedding of the two deployment shells of the grader:
    the persistent express server (module [Server]) and the serverless
    function [netlify/functions/analyze.js] (module [Netlify]).

    JavaScript strings are sequences of UTF-16 code units, so that
    [length], [trim], [endsWith], [includes] and the regular expressions
    of the program see what the program sees.  The third-party libraries
    (pdf-parse, mammoth, the generative-language client) and the builtins
    whose full semantics is outside the program ([JSON.parse],
    [toLowerCase], [Buffer] decoding, the clock) are the fields of the
    class [Externals]; every external call is recorded in a trace. *)

From Stdlib Require Import NArith Bool Ascii String DecimalString Lia Arith.
From Stdlib Require Import List.
Import ListNotations.

Set Implicit Arguments.

(** ** Strings as UTF-16 code units *)

Definition char16 := N.
Definition jsstring := list char16.

(** An ASCII literal of the source as a sequence of code units. *)
Definition lit (s : string) : jsstring :=
  map N_of_ascii (list_ascii_of_string s).

Definition dquote : char16 := 34%N.
Definition backslash : char16 := 92%N.
Definition newline : char16 := 10%N.
Definition backtick : char16 := 96%N.
(** U+2022, the bullet of the prompt and of the placeholder feedback. *)
Definition bullet : char16 := 8226%N.

Fixpoint str_eqb (a b : jsstring) : bool :=
  match a, b with
  | [], [] => true
  | x :: a', y :: b' => (x =? y)%N && str_eqb a' b'
  | _, _ => false
  end.

(** [s.startsWith(p)] *)
Fixpoint startsWith (s p : jsstring) {struct p} : bool :=
  match p, s with
  | [], _ => true
  | a :: p', b :: s' => (a =? b)%N && startsWith s' p'
  | _ :: _, [] => false
  end.

(** [s.endsWith(p)] *)
Definition endsWith (s p : jsstring) : bool :=
  startsWith (rev s) (rev p).

(** [s.includes(p)] *)
Fixpoint includes (s p : jsstring) : bool :=
  startsWith s p ||
  match s with
  | [] => false
  | _ :: s' => includes s' p
  end.

(** White space and line terminators: the characters of [\s] in a
    regular expression and the ones [trim] removes. *)
Definition is_space (c : char16) : bool :=
  ((9 <=? c) && (c <=? 13) || (c =? 32) || (c =? 160) || (c =? 5760)
   || (8192 <=? c) && (c <=? 8202)
   || (c =? 8232) || (c =? 8233) || (c =? 8239) || (c =? 8287)
   || (c =? 12288) || (c =? 65279))%N.

Fixpoint trimStart (s : jsstring) : jsstring :=
  match s with
  | c :: s' => if is_space c then trimStart s' else s
  | [] => []
  end.

(** [s.trim()] *)
Definition trim (s : jsstring) : jsstring :=
  rev (trimStart (rev (trimStart s))).

(** Truthiness of a value that is a string or [undefined]. *)
Definition truthy (v : option jsstring) : bool :=
  match v with
  | Some (_ :: _) => true
  | _ => false
  end.

(** [v || d] for such a value. *)
Definition or_else (v : option jsstring) (d : jsstring) : jsstring :=
  match v with
  | Some (c :: s) => c :: s
  | _ => d
  end.

(** ** Regular expressions

    The patterns of the program use literal characters, one-character
    classes under [*], [+] and [?], concatenation and one capturing
    group.  Matching is the backtracking matching of JavaScript: greedy
    quantifiers, the first alternative that lets the rest of the pattern
    succeed. *)

Inductive regex : Type :=
| Lit (w : jsstring)
| Star (p : char16 -> bool)
| Plus (p : char16 -> bool)
| Opt (p : char16 -> bool)
| Seq (r1 r2 : regex)
| Group (r : regex).

Section Matcher.
Variable R : Type.

Fixpoint lit_k (w s : jsstring) (k : jsstring -> option R) : option R :=
  match w, s with
  | [], _ => k s
  | a :: w', b :: s' => if (a =? b)%N then lit_k w' s' k else None
  | _ :: _, [] => None
  end.

Fixpoint star_k (p : char16 -> bool) (s : jsstring)
         (k : jsstring -> option R) : option R :=
  match s with
  | c :: s' =>
      if p c then
        match star_k p s' k with
        | Some r => Some r
        | None => k s
        end
      else k s
  | [] => k []
  end.

Fixpoint rmatch (r : regex) (s : jsstring) (caps : list jsstring)
         (k : jsstring -> list jsstring -> option R) : option R :=
  match r with
  | Lit w => lit_k w s (fun s' => k s' caps)
  | Star p => star_k p s (fun s' => k s' caps)
  | Plus p =>
      match s with
      | c :: s' => if p c then star_k p s' (fun s'' => k s'' caps) else None
      | [] => None
      end
  | Opt p =>
      match s with
      | c :: s' =>
          if p c then
            match k s' caps with
            | Some x => Some x
            | None => k s caps
            end
          else k s caps
      | [] => k [] caps
      end
  | Seq r1 r2 => rmatch r1 s caps (fun s' caps' => rmatch r2 s' caps' k)
  | Group r1 =>
      rmatch r1 s caps
        (fun s' caps' => k s' (caps' ++ [firstn (length s - length s') s]))
  end.
End Matcher.

(** A match of [r] starting at the head of [s]: what is left of [s] and
    the captured groups. *)
Definition match_here (r : regex) (s : jsstring)
  : option (jsstring * list jsstring) :=
  rmatch r s [] (fun s' caps => Some (s', caps)).

(** [s.match(r)] for a pattern without the [g] flag: the groups of the
    leftmost match. *)
Fixpoint exec (r : regex) (s : jsstring) : option (list jsstring) :=
  match match_here r s with
  | Some (_, caps) => Some caps
  | None =>
      match s with
      | [] => None
      | _ :: s' => exec r s'
      end
  end.

(** [m[1]] *)
Definition group1 (caps : list jsstring) : jsstring := nth 0 caps [].

(** [s.replace(r, rep)] for a pattern with the [g] flag and a replacement
    without [$]: [skip] counts the characters of the current match still
    to be dropped. *)
Fixpoint replace_from (r : regex) (rep : jsstring) (skip : nat)
         (s : jsstring) : jsstring :=
  match s with
  | [] =>
      match skip with
      | O => match match_here r [] with Some _ => rep | None => [] end
      | S _ => []
      end
  | c :: s' =>
      match skip with
      | S k => replace_from r rep k s'
      | O =>
          match match_here r s with
          | Some (rest, _) =>
              match length s - length rest with
              | O => rep ++ c :: replace_from r rep 0 s'
              | S k => rep ++ replace_from r rep k s'
              end
          | None => c :: replace_from r rep 0 s'
          end
      end
  end.

Definition replace_g (s : jsstring) (r : regex) (rep : jsstring) : jsstring :=
  replace_from r rep 0 s.

Definition chr (c : char16) : regex := Lit [c].
Definition is_not (c : char16) (x : char16) : bool := negb (x =? c)%N.
Definition is_chr (c : char16) (x : char16) : bool := (x =? c)%N.

Fixpoint seqs (rs : list regex) : regex :=
  match rs with
  | [] => Lit []
  | [r] => r
  | r :: rs' => Seq r (seqs rs')
  end.

(** *** The patterns of [callGeminiAPI]

    In the comments below a pattern is written as in the source, with
    [Q] standing for the double-quote character. *)

Definition fence : jsstring := [backtick; backtick; backtick].
(** [QscoreQ:] *)
Definition key_score : jsstring := dquote :: lit "score" ++ [dquote] ++ lit ":".
(** [QfeedbackQ:] *)
Definition key_feedback : jsstring :=
  dquote :: lit "feedback" ++ [dquote] ++ lit ":".

(** [/```json\s*/g] *)
Definition re_fence_json_ws : regex :=
  seqs [Lit (fence ++ lit "json"); Star is_space].
(** [/```\s*/g] *)
Definition re_fence_ws : regex := seqs [Lit fence; Star is_space].
(** [/QscoreQ:\s*Q([^Q]+)Q/] *)
Definition re_score : regex :=
  seqs [Lit key_score; Star is_space; chr dquote;
        Group (Plus (is_not dquote)); chr dquote].
(** [/QfeedbackQ:\s*Q([^Q]+)Q/] *)
Definition re_feedback : regex :=
  seqs [Lit key_feedback; Star is_space; chr dquote;
        Group (Plus (is_not dquote)); chr dquote].
(** [/QfeedbackQ:\s*\[([^\]]+)\]/] *)
Definition re_feedback_array : regex :=
  seqs [Lit key_feedback; Star is_space; chr 91%N;
        Group (Plus (is_not 93%N)); chr 93%N].
(** [/\\n/g]: a backslash followed by the letter n *)
Definition re_escaped_n : regex := Lit [backslash; 110%N].
(** [/Q/g] *)
Definition re_dquote : regex := chr dquote.
(** [/,/g] *)
Definition re_comma : regex := chr 44%N.
(** [/```json/g] *)
Definition re_fence_json : regex := Lit (fence ++ lit "json").
(** [/```/g] *)
Definition re_fence : regex := Lit fence.
(** [/{\s*QscoreQ:\s*Q[^Q]*Q,?\s*/g] *)
Definition re_score_prefix : regex :=
  seqs [chr 123%N; Star is_space; Lit key_score; Star is_space; chr dquote;
        Star (is_not dquote); chr dquote; Opt (is_chr 44%N); Star is_space].
(** [/QfeedbackQ:\s*Q/g] *)
Definition re_feedback_open : regex :=
  seqs [Lit key_feedback; Star is_space; chr dquote].
(** [/Q\s*}/g] *)
Definition re_close : regex := seqs [chr dquote; Star is_space; chr 125%N].

(** ** Values, outcomes and the trace of external calls *)

(** JSON values: what [JSON.parse] returns and what the handlers send.
    A number is kept as its decimal text, an object as its members in
    source order. *)
#[local] Unset Elimination Schemes.
Inductive json : Type :=
| JNull
| JBool (b : bool)
| JNum (digits : jsstring)
| JStr (s : jsstring)
| JArr (items : list json)
| JObj (members : list (jsstring * json)).
#[local] Set Elimination Schemes.

(** [o.name], [None] for [undefined]. *)
Fixpoint lookup (name : jsstring) (members : list (jsstring * json))
  : option json :=
  match members with
  | [] => None
  | (k, v) :: rest => if str_eqb k name then Some v else lookup name rest
  end.

Definition field (name : string) (j : json) : option json :=
  match j with
  | JObj members => lookup (lit name) members
  | _ => None
  end.

Definition decimal (n : nat) : jsstring :=
  lit (NilZero.string_of_uint (Nat.to_uint n)).

Definition Buffer := list Byte.byte.

(** A call returns or throws an [Error] with a message. *)
Inductive outcome (A : Type) : Type :=
| Ret (a : A)
| Throw (message : jsstring).
Arguments Ret {A} a.
Arguments Throw {A} message.

(** [data] of pdf-parse and [result] of mammoth: the text may be missing. *)
Record PdfData := { text : option jsstring }.
Record RawText := { value : option jsstring }.

(** What lies outside the program. *)
Class Externals : Type := {
  (** [process.env.GEMINI_API_KEY] *)
  GEMINI_API_KEY : option jsstring;
  (** [pdfParse(buffer)] *)
  pdfParse_lib : Buffer -> outcome PdfData;
  (** [mammoth.extractRawText({ buffer })] *)
  mammoth_lib : Buffer -> outcome RawText;
  (** the client of the model, from the key and the prompt to
      [response.text()] *)
  generateContent_lib : jsstring -> jsstring -> outcome jsstring;
  (** [JSON.parse], [None] when it throws *)
  JSON_parse : jsstring -> option json;
  (** [String.prototype.toLowerCase] *)
  toLowerCase : jsstring -> jsstring;
  (** [buffer.toString('utf8')] *)
  toString_utf8 : Buffer -> jsstring;
  (** [Buffer.from(file, 'base64')] *)
  from_base64 : jsstring -> Buffer;
  (** [new Date().toISOString()] *)
  now_iso : jsstring
}.

Inductive extcall : Type :=
| CallPdfParse (buffer : Buffer)
| CallMammoth (buffer : Buffer)
| CallGenerate (apiKey prompt : jsstring).

Definition is_generate (e : extcall) : bool :=
  match e with
  | CallGenerate _ _ => true
  | _ => false
  end.

(** Computations that may throw and that log their external calls. *)
Definition M (A : Type) : Type := list extcall -> outcome A * list extcall.

Definition ret {A} (a : A) : M A := fun tr => (Ret a, tr).
Definition throw {A} (message : jsstring) : M A :=
  fun tr => (Throw message, tr).
Definition bind {A B} (m : M A) (f : A -> M B) : M B :=
  fun tr =>
    match m tr with
    | (Ret a, tr') => f a tr'
    | (Throw e, tr') => (Throw e, tr')
    end.
(** [try { m } catch (error) { h error.message }] *)
Definition try_catch {A} (m : M A) (h : jsstring -> M A) : M A :=
  fun tr =>
    match m tr with
    | (Ret a, tr') => (Ret a, tr')
    | (Throw e, tr') => h e tr'
    end.
Definition call {A} (e : extcall) (r : outcome A) : M A :=
  fun tr => (r, tr ++ [e]).

Notation "x <- m ;; k" := (bind m (fun x => k))
  (at level 61, m at next level, right associativity).

Section Calls.
Context {E : Externals}.
Definition pdfParse (buffer : Buffer) : M PdfData :=
  call (CallPdfParse buffer) (pdfParse_lib buffer).
Definition extractRawText (buffer : Buffer) : M RawText :=
  call (CallMammoth buffer) (mammoth_lib buffer).
Definition generateContent (apiKey prompt : jsstring) : M jsstring :=
  call (CallGenerate apiKey prompt) (generateContent_lib apiKey prompt).
End Calls.

(** An HTTP response: status code and JSON body ([None] for the empty
    body). *)
Record Response := { statusCode : nat; body : option json }.

Definition respond (status : nat) (members : list (jsstring * json))
  : Response :=
  {| statusCode := status; body := Some (JObj members) |}.

(** The object literals of the responses: [{ error }],
    [{ error, success: false }] and
    [{ success: true, result, metadata: { documentLength, rubricLength,
    timestamp } }]. *)
Definition error_only (message : jsstring) : list (jsstring * json) :=
  [(lit "error", JStr message)].
Definition error_failed (message : jsstring) : list (jsstring * json) :=
  [(lit "error", JStr message); (lit "success", JBool false)].
Definition success_members (result : json) (documentText rubricText : jsstring)
           (timestamp : jsstring) : list (jsstring * json) :=
  [(lit "success", JBool true);
   (lit "result", result);
   (lit "metadata",
     JObj [(lit "documentLength", JNum (decimal (length documentText)));
           (lit "rubricLength", JNum (decimal (length rubricText)));
           (lit "timestamp", JStr timestamp)])].

(** ** Text shared by the two shells *)

Definition msg_no_file : jsstring := lit "No file provided".
Definition msg_unsupported : jsstring :=
  lit "Unsupported file format. Please use PDF, DOCX, or TXT files.".
Definition placeholder_pdf : jsstring := lit "Unable to extract text from PDF".
Definition placeholder_docx : jsstring :=
  lit "Unable to extract text from DOCX".
Definition msg_invalid_key : jsstring := lit "Invalid Gemini API key".
Definition msg_quota : jsstring :=
  lit "API quota exceeded. Please try again later.".
Definition msg_safety : jsstring :=
  lit "Content was blocked by safety filters. "
  ++ lit "Please try with different content.".
Definition msg_request_failed : jsstring := lit "Gemini API request failed: ".
Definition msg_pdf_required : jsstring := lit "PDF file is required".
Definition msg_rubric_required : jsstring := lit "Rubric file is required".
Definition msg_no_text_pdf : jsstring :=
  lit "Could not extract text from PDF. "
  ++ lit "Please ensure the PDF contains readable text.".
Definition msg_no_text_rubric : jsstring :=
  lit "Could not extract text from rubric file. Please check the file format.".
Definition default_score : jsstring := lit "Analysis Complete".
(** The generic feedback, four bulleted lines. *)
Definition placeholder_feedback : jsstring :=
  bullet :: lit " Analysis completed" ++ newline ::
  bullet :: lit " Please review the document for quality" ++ newline ::
  bullet :: lit " Consider the rubric requirements" ++ newline ::
  bullet :: lit " Make improvements as needed".

(** The prompt template; [sep] is what separates the four bullets of the
    sample feedback: the template of the server has the escape
    backslash-n there (a line feed), the one of the serverless function a
    doubled backslash followed by n (a backslash and the letter n). *)
Definition prompt_template (sep rubricText documentText instructions : jsstring)
  : jsstring :=
  lit "You are an academic evaluator. Analyze this document against the "
  ++ lit "rubric and provide a simple, concise evaluation."
  ++ [newline; newline] ++ lit "RUBRIC:" ++ [newline] ++ rubricText
  ++ [newline; newline] ++ lit "DOCUMENT TO EVALUATE:" ++ [newline]
  ++ documentText
  ++ [newline; newline] ++ instructions
  ++ [newline; newline]
  ++ lit "Please provide your response in this JSON format with bullet points:"
  ++ [newline] ++ lit "{" ++ [newline]
  ++ lit "    " ++ [dquote] ++ lit "score" ++ [dquote] ++ lit ": " ++ [dquote]
  ++ lit "X/Y or percentage" ++ [dquote] ++ lit ", " ++ [newline]
  ++ lit "    " ++ [dquote] ++ lit "feedback" ++ [dquote] ++ lit ": "
  ++ [dquote]
  ++ bullet :: lit " Main strength of the document" ++ sep
  ++ bullet :: lit " Key area that needs improvement" ++ sep
  ++ bullet :: lit " Specific suggestion for enhancement" ++ sep
  ++ bullet :: lit " Overall assessment in one sentence" ++ [dquote]
  ++ [newline] ++ lit "}".

(** The template expression for the optional instructions, after the
    default [''] of the parameter. *)
Definition instructions_line (customInstructions : option jsstring)
  : jsstring :=
  match customInstructions with
  | Some (c :: s) => lit "ADDITIONAL INSTRUCTIONS: " ++ c :: s
  | _ => []
  end.

(** The catch clause of [callGeminiAPI], the same in both shells. *)
Definition categorize (message : jsstring) : jsstring :=
  if includes message (lit "API_KEY_INVALID") then msg_invalid_key
  else if includes message (lit "QUOTA_EXCEEDED") then msg_quota
  else if includes message (lit "SAFETY") then msg_safety
  else msg_request_failed ++ message.

Definition is_empty (s : jsstring) : bool :=
  match s with
  | [] => true
  | _ :: _ => false
  end.

(** ** The persistent server *)

Module Server.

(** A file of [req.files], as multer's memory storage leaves it. *)
Record UploadedFile := {
  originalname : jsstring;
  buffer : option Buffer
}.

(** The parsed multipart request. *)
Record Request := {
  pdfFile : option UploadedFile;
  rubricFile : option UploadedFile;
  customInstructions : option jsstring
}.

(** What reaches the route: the upload middleware may reject the
    request before the handler runs. *)
Inductive Incoming : Type :=
| UploadRejected
| Uploaded (req : Request).

Section WithExternals.
Context {E : Externals}.

Definition extractTextFromPDF (buffer : Buffer) : M jsstring :=
  try_catch
    (data <- pdfParse buffer ;;
     ret (or_else (text data) placeholder_pdf))
    (fun message => throw (lit "Failed to parse PDF: " ++ message)).

Definition extractTextFromDocx (buffer : Buffer) : M jsstring :=
  try_catch
    (result <- extractRawText buffer ;;
     ret (or_else (value result) placeholder_docx))
    (fun message => throw (lit "Failed to parse DOCX: " ++ message)).

Definition extractTextFromFile (file : option UploadedFile) : M jsstring :=
  match file with
  | None => throw msg_no_file
  | Some f =>
      match buffer f with
      | None => throw msg_no_file
      | Some buf =>
          let filename := toLowerCase (originalname f) in
          if endsWith filename (lit ".pdf") then extractTextFromPDF buf
          else if endsWith filename (lit ".docx") then extractTextFromDocx buf
          else if endsWith filename (lit ".txt") then ret (toString_utf8 buf)
          else throw msg_unsupported
      end
  end.

Definition prompt (documentText rubricText : jsstring)
           (customInstructions : option jsstring) : jsstring :=
  prompt_template [newline] rubricText documentText
    (instructions_line customInstructions).

(** First attempt of the normalizer: the reply without its code
    fences. *)
Definition cleanContent (content : jsstring) : jsstring :=
  trim (replace_g (replace_g content re_fence_json_ws []) re_fence_ws []).

(** The catch clause of the normalizer: score and feedback found by
    pattern. *)
Definition extractedScore (content : jsstring) : jsstring :=
  match exec re_score content with
  | Some scoreMatch => group1 scoreMatch
  | None => default_score
  end.

Definition extractedFeedback (content : jsstring) : jsstring :=
  match exec re_feedback content with
  | Some feedbackMatch =>
      replace_g (group1 feedbackMatch) re_escaped_n [newline]
  | None =>
      match exec re_feedback_array content with
      | Some feedbackArrayMatch =>
          trim (replace_g (replace_g (replace_g (group1 feedbackArrayMatch)
                  re_dquote []) re_comma [newline]) re_escaped_n [newline])
      | None =>
          let cleaned :=
            trim (replace_g (replace_g (replace_g (replace_g (replace_g
              (replace_g content re_fence_json []) re_fence [])
              re_score_prefix []) re_feedback_open []) re_close [])
              re_escaped_n [newline]) in
          if is_empty cleaned || (length cleaned <? 10)
          then placeholder_feedback
          else cleaned
      end
  end.

(** The inner try/catch of [callGeminiAPI]: from [response.text()] to
    the result. *)
Definition normalizeResponse (content : jsstring) : json :=
  match JSON_parse (cleanContent content) with
  | Some parsed => parsed
  | None =>
      JObj [(lit "score", JStr (extractedScore content));
            (lit "feedback", JStr (extractedFeedback content))]
  end.

Definition callGeminiAPI (documentText rubricText : jsstring)
           (customInstructions : option jsstring) : M json :=
  let apiKey := GEMINI_API_KEY in
  if negb (truthy apiKey) then
    throw (lit "Gemini API key not configured on server")
  else
    try_catch
      (content <- generateContent (or_else apiKey [])
                    (prompt documentText rubricText customInstructions) ;;
       ret (normalizeResponse content))
      (fun message => throw (categorize message)).

(** The body of the route handler, inside its [try]. *)
Definition analyze_try (req : Request) : M Response :=
  match pdfFile req with
  | None => ret (respond 400 (error_only msg_pdf_required))
  | Some _ =>
      match rubricFile req with
      | None => ret (respond 400 (error_only msg_rubric_required))
      | Some _ =>
          documentText <- extractTextFromFile (pdfFile req) ;;
          rubricText <- extractTextFromFile (rubricFile req) ;;
          if is_empty (trim documentText) then
            ret (respond 400 (error_only msg_no_text_pdf))
          else if is_empty (trim rubricText) then
            ret (respond 400 (error_only msg_no_text_rubric))
          else
            result <- callGeminiAPI documentText rubricText
                        (customInstructions req) ;;
            ret (respond 200
                   (success_members result documentText rubricText now_iso))
      end
  end.

(** [app.post('/api/analyze', upload.fields(...), handler)] followed
    by the error-handling middleware. *)
Definition post_analyze (inc : Incoming) (tr : list extcall)
  : Response * list extcall :=
  match inc with
  | UploadRejected =>
      (respond 500 (error_failed (lit "Internal server error")), tr)
  | Uploaded req =>
      match analyze_try req tr with
      | (Ret response, tr') => (response, tr')
      | (Throw message, tr') =>
          (respond 500 (error_failed message), tr')
      end
  end.
End WithExternals.
End Server.

(** ** The serverless function *)

Module Netlify.

(** A file of the JSON body: base64 content and file name, either of
    which may be missing. *)
Record FileField := {
  content : option jsstring;
  filename : option jsstring
}.

Record Body := {
  pdfFile : option FileField;
  rubricFile : option FileField;
  customInstructions : option jsstring
}.

(** The event of the platform; [parsed_body] is the outcome of
    [JSON.parse(event.body)] and of the destructuring that follows. *)
Record Event := {
  httpMethod : jsstring;
  parsed_body : outcome Body
}.

(** [!f || !f.content || !f.filename] *)
Definition missing (f : option FileField) : bool :=
  match f with
  | None => true
  | Some f => negb (truthy (content f)) || negb (truthy (filename f))
  end.

Definition content_of (f : option FileField) : option jsstring :=
  match f with
  | Some f => content f
  | None => None
  end.

Definition filename_of (f : option FileField) : jsstring :=
  match f with
  | Some f => or_else (filename f) []
  | None => []
  end.

(** The key compiled into the function, used when the environment has
    none: a literal of 39 characters.  It is a credential, so only its
    first six characters are reproduced, the other 33 are masked. *)
Definition default_key : jsstring := lit "AIzaSy" ++ repeat 120%N 33.

Section WithExternals.
Context {E : Externals}.

Definition extractTextFromFile (file : option jsstring) (filename : jsstring)
  : M jsstring :=
  if negb (truthy file) then throw msg_no_file
  else
    let buffer := from_base64 (or_else file []) in
    let name := toLowerCase filename in
    if endsWith name (lit ".pdf") then
      data <- pdfParse buffer ;;
      ret (or_else (text data) placeholder_pdf)
    else if endsWith name (lit ".docx") then
      result <- extractRawText buffer ;;
      ret (or_else (value result) placeholder_docx)
    else if endsWith name (lit ".txt") then ret (toString_utf8 buffer)
    else throw msg_unsupported.

Definition apiKey : option jsstring :=
  Some (or_else GEMINI_API_KEY default_key).

Definition prompt (documentText rubricText : jsstring)
           (customInstructions : option jsstring) : jsstring :=
  prompt_template [backslash; 110%N] rubricText documentText
    (instructions_line customInstructions).

Definition cleanContent (content : jsstring) : jsstring :=
  trim (replace_g (replace_g content re_fence_json_ws []) re_fence_ws []).

Definition extractedScore (content : jsstring) : jsstring :=
  match exec re_score content with
  | Some scoreMatch => group1 scoreMatch
  | None => default_score
  end.

Definition extractedFeedback (content : jsstring) : jsstring :=
  match exec re_feedback content with
  | Some feedbackMatch =>
      replace_g (group1 feedbackMatch) re_escaped_n [newline]
  | None =>
      let cleaned :=
        trim (replace_g (replace_g (replace_g (replace_g (replace_g
          (replace_g content re_fence_json []) re_fence [])
          re_score_prefix []) re_feedback_open []) re_close [])
          re_escaped_n [newline]) in
      if is_empty cleaned || (length cleaned <? 10)
      then placeholder_feedback
      else cleaned
  end.

Definition normalizeResponse (content : jsstring) : json :=
  match JSON_parse (cleanContent content) with
  | Some parsed => parsed
  | None =>
      JObj [(lit "score", JStr (extractedScore content));
            (lit "feedback", JStr (extractedFeedback content))]
  end.

Definition callGeminiAPI (documentText rubricText : jsstring)
           (customInstructions : option jsstring) : M json :=
  if negb (truthy apiKey) then
    throw (lit "Gemini API key not configured")
  else
    try_catch
      (content <- generateContent (or_else apiKey [])
                    (prompt documentText rubricText customInstructions) ;;
       ret (normalizeResponse content))
      (fun message => throw (categorize message)).

(** The [try] block of the handler. *)
Definition handler_try (event : Event) : M Response :=
  fun tr =>
    match parsed_body event with
    | Throw message => (Throw message, tr)
    | Ret b =>
        (if missing (pdfFile b) then
           ret (respond 400 (error_only msg_pdf_required))
         else if missing (rubricFile b) then
           ret (respond 400 (error_only msg_rubric_required))
         else
           documentText <- extractTextFromFile (content_of (pdfFile b))
                             (filename_of (pdfFile b)) ;;
           rubricText <- extractTextFromFile (content_of (rubricFile b))
                           (filename_of (rubricFile b)) ;;
           if is_empty (trim documentText) then
             ret (respond 400 (error_only msg_no_text_pdf))
           else if is_empty (trim rubricText) then
             ret (respond 400 (error_only msg_no_text_rubric))
           else
             result <- callGeminiAPI documentText rubricText
                         (customInstructions b) ;;
             ret (respond 200
                    (success_members result documentText rubricText
                       now_iso))) tr
    end.

(** [exports.handler] *)
Definition handler (event : Event) (tr : list extcall)
  : Response * list extcall :=
  if str_eqb (httpMethod event) (lit "OPTIONS") then
    ({| statusCode := 200; body := None |}, tr)
  else if negb (str_eqb (httpMethod event) (lit "POST")) then
    (respond 405 (error_only (lit "Method not allowed")), tr)
  else
    match handler_try event tr with
    | (Ret response, tr') => (response, tr')
    | (Throw message, tr') =>
        (respond 500 (error_failed message), tr')
    end.
End WithExternals.
End Netlify.

(** ** Builtins for the examples

    Executable versions of the builtins, used to run the two shells on
    concrete requests.  The theorems below hold for every [Externals];
    these definitions only instantiate them. *)

Module Builtins.

Definition is_json_space (c : char16) : bool :=
  ((c =? 32) || (c =? 9) || (c =? 10) || (c =? 13))%N.

Fixpoint skip_ws (s : jsstring) : jsstring :=
  match s with
  | c :: s' => if is_json_space c then skip_ws s' else s
  | [] => []
  end.

Definition is_digit (c : char16) : bool := ((48 <=? c) && (c <=? 57))%N.

Definition hex_value (c : char16) : option N :=
  if is_digit c then Some (c - 48)%N
  else if ((97 <=? c) && (c <=? 102))%N then Some (c - 87)%N
  else if ((65 <=? c) && (c <=? 70))%N then Some (c - 55)%N
  else None.

(** The character an escape letter stands for. *)
Definition escape (c : char16) : option char16 :=
  if (c =? 34)%N then Some 34%N
  else if (c =? 92)%N then Some 92%N
  else if (c =? 47)%N then Some 47%N
  else if (c =? 98)%N then Some 8%N
  else if (c =? 102)%N then Some 12%N
  else if (c =? 110)%N then Some 10%N
  else if (c =? 114)%N then Some 13%N
  else if (c =? 116)%N then Some 9%N
  else None.

Inductive string_state : Type :=
| InText
| AfterBackslash
| InHex (remaining : nat) (acc : N).

(** The rest of a string literal after its opening quote: its value and
    what follows the closing quote. *)
Fixpoint string_body (st : string_state) (s out : jsstring)
  : option (jsstring * jsstring) :=
  match s with
  | [] => None
  | c :: s' =>
      match st with
      | InText =>
          if (c =? 34)%N then Some (rev out, s')
          else if (c =? 92)%N then string_body AfterBackslash s' out
          else if (c <? 32)%N then None
          else string_body InText s' (c :: out)
      | AfterBackslash =>
          if (c =? 117)%N then string_body (InHex 4 0) s' out
          else
            match escape c with
            | Some x => string_body InText s' (x :: out)
            | None => None
            end
      | InHex remaining acc =>
          match hex_value c, remaining with
          | Some v, 1 => string_body InText s' ((acc * 16 + v)%N :: out)
          | Some v, S k => string_body (InHex k (acc * 16 + v)%N) s' out
          | _, _ => None
          end
      end
  end.

Fixpoint span (p : char16 -> bool) (s : jsstring) : jsstring * jsstring :=
  match s with
  | c :: s' =>
      if p c then let (a, b) := span p s' in (c :: a, b) else ([], s)
  | [] => ([], [])
  end.

(** One or more digits. *)
Definition digits1 (s : jsstring) : option (jsstring * jsstring) :=
  match span is_digit s with
  | ([], _) => None
  | (ds, rest) => Some (ds, rest)
  end.

Definition number_int (s : jsstring) : option (jsstring * jsstring) :=
  match s with
  | c :: s' => if (c =? 48)%N then Some ([c], s') else digits1 s
  | [] => None
  end.

Definition number_frac (s : jsstring) : option (jsstring * jsstring) :=
  match s with
  | c :: s' =>
      if (c =? 46)%N then
        match digits1 s' with
        | Some (ds, rest) => Some (c :: ds, rest)
        | None => None
        end
      else Some ([], s)
  | [] => Some ([], [])
  end.

Definition number_exp (s : jsstring) : option (jsstring * jsstring) :=
  match s with
  | c :: s' =>
      if ((c =? 101) || (c =? 69))%N then
        let (sign, s'') :=
          match s' with
          | d :: t => if ((d =? 43) || (d =? 45))%N then ([d], t) else ([], s')
          | [] => ([], [])
          end in
        match digits1 s'' with
        | Some (ds, rest) => Some (c :: sign ++ ds, rest)
        | None => None
        end
      else Some ([], s)
  | [] => Some ([], [])
  end.

Definition number (s : jsstring) : option (jsstring * jsstring) :=
  let (sign, s1) :=
    match s with
    | c :: t => if (c =? 45)%N then ([c], t) else ([], s)
    | [] => ([], [])
    end in
  match number_int s1 with
  | None => None
  | Some (i, s2) =>
      match number_frac s2 with
      | None => None
      | Some (f, s3) =>
          match number_exp s3 with
          | None => None
          | Some (e, s4) => Some (sign ++ i ++ f ++ e, s4)
          end
      end
  end.

(** A value of the JSON grammar at the head of [s], after white
    space. *)
Fixpoint parse_value (fuel : nat) (s : jsstring) : option (json * jsstring) :=
  match fuel with
  | O => None
  | S fuel' =>
      match skip_ws s with
      | [] => None
      | c :: t =>
          if (c =? 34)%N then
            match string_body InText t [] with
            | Some (v, rest) => Some (JStr v, rest)
            | None => None
            end
          else if (c =? 91)%N then
            match skip_ws t with
            | d :: rest =>
                if (d =? 93)%N then Some (JArr [], rest)
                else parse_elements fuel' t []
            | [] => None
            end
          else if (c =? 123)%N then
            match skip_ws t with
            | d :: rest =>
                if (d =? 125)%N then Some (JObj [], rest)
                else parse_members fuel' t []
            | [] => None
            end
          else if startsWith (c :: t) (lit "true") then
            Some (JBool true, skipn 4 (c :: t))
          else if startsWith (c :: t) (lit "false") then
            Some (JBool false, skipn 5 (c :: t))
          else if startsWith (c :: t) (lit "null") then
            Some (JNull, skipn 4 (c :: t))
          else
            match number (c :: t) with
            | Some (n, rest) => Some (JNum n, rest)
            | None => None
            end
      end
  end
with parse_elements (fuel : nat) (s : jsstring) (acc : list json)
  : option (json * jsstring) :=
  match fuel with
  | O => None
  | S fuel' =>
      match parse_value fuel' s with
      | None => None
      | Some (v, rest) =>
          match skip_ws rest with
          | d :: rest' =>
              if (d =? 44)%N then parse_elements fuel' rest' (v :: acc)
              else if (d =? 93)%N then Some (JArr (rev (v :: acc)), rest')
              else None
          | [] => None
          end
      end
  end
with parse_members (fuel : nat) (s : jsstring) (acc : list (jsstring * json))
  : option (json * jsstring) :=
  match fuel with
  | O => None
  | S fuel' =>
      match skip_ws s with
      | q :: t =>
          if (q =? 34)%N then
            match string_body InText t [] with
            | None => None
            | Some (k, rest) =>
                match skip_ws rest with
                | colon :: rest' =>
                    if (colon =? 58)%N then
                      match parse_value fuel' rest' with
                      | None => None
                      | Some (v, rest'') =>
                          match skip_ws rest'' with
                          | d :: r =>
                              if (d =? 44)%N then
                                parse_members fuel' r ((k, v) :: acc)
                              else if (d =? 125)%N then
                                Some (JObj (rev ((k, v) :: acc)), r)
                              else None
                          | [] => None
                          end
                      end
                    else None
                | [] => None
                end
            end
          else None
      | [] => None
      end
  end.

(** [JSON.parse]: one value, nothing but white space after it.  Every
    recursive call is made after at most two steps without reading a
    character, hence the fuel. *)
Definition json_parse (s : jsstring) : option json :=
  match parse_value (2 * length s + 2) s with
  | Some (v, rest) =>
      match skip_ws rest with
      | [] => Some v
      | _ :: _ => None
      end
  | None => None
  end.

(** [toLowerCase] on the letters A to Z; other code units are kept, as
    JavaScript keeps every other ASCII character. *)
Definition lower (c : char16) : char16 :=
  if ((65 <=? c) && (c <=? 90))%N then (c + 32)%N else c.
Definition lowercase (s : jsstring) : jsstring := map lower s.

(** Decoding of a buffer of ASCII bytes as text. *)
Definition decode_ascii (b : Buffer) : jsstring := map Byte.to_N b.

Definition sextet (c : char16) : option N :=
  if ((65 <=? c) && (c <=? 90))%N then Some (c - 65)%N
  else if ((97 <=? c) && (c <=? 122))%N then Some (c - 71)%N
  else if is_digit c then Some (c + 4)%N
  else if ((c =? 43) || (c =? 45))%N then Some 62%N
  else if ((c =? 47) || (c =? 95))%N then Some 63%N
  else None.

Fixpoint sextets (s : jsstring) : list N :=
  match s with
  | [] => []
  | c :: s' =>
      match sextet c with
      | Some v => v :: sextets s'
      | None => if (c =? 61)%N then [] else sextets s'
      end
  end.

Definition byte_of (n : N) : Byte.byte :=
  match Byte.of_N (n mod 256) with
  | Some b => b
  | None => Byte.x00
  end.

Fixpoint bytes_of_sextets (fuel : nat) (l : list N) : Buffer :=
  match fuel with
  | O => []
  | S fuel' =>
      match l with
      | a :: b :: c :: d :: rest =>
          byte_of (a * 4 + b / 16) :: byte_of (b * 16 + c / 4)
            :: byte_of (c * 64 + d) :: bytes_of_sextets fuel' rest
      | [a; b; c] => [byte_of (a * 4 + b / 16); byte_of (b * 16 + c / 4)]
      | [a; b] => [byte_of (a * 4 + b / 16)]
      | _ => []
      end
  end.

(** Base64 decoding: the alphabet (also the URL one), padding ends the
    data, other characters are skipped. *)
Definition decode_base64 (s : jsstring) : Buffer :=
  bytes_of_sextets (length s) (sextets s).

(** The world of the examples: the libraries and the model are given,
    the builtins are the ones above. *)
Definition world (key : option jsstring)
           (pdf : Buffer -> outcome PdfData)
           (docx : Buffer -> outcome RawText)
           (model : jsstring -> jsstring -> outcome jsstring) : Externals :=
  {| GEMINI_API_KEY := key;
     pdfParse_lib := pdf;
     mammoth_lib := docx;
     generateContent_lib := model;
     JSON_parse := json_parse;
     toLowerCase := lowercase;
     toString_utf8 := decode_ascii;
     from_base64 := decode_base64;
     now_iso := lit "2024-01-01T00:00:00.000Z" |}.
End Builtins.

(** ** The stripping of code fences, said directly

    [strip_marker marker s] is [s] without the occurrences of [marker],
    found from the left, each removed with the white space that follows
    it.  It is compared below with the two global replacements of the
    normalizer. *)

(** The number of white-space characters at the head of [s]. *)
Definition leading_spaces (s : jsstring) : nat :=
  length s - length (trimStart s).

(** [skip] counts the characters of the current occurrence, marker and
    white space, still to be dropped. *)
Fixpoint strip_marker_from (marker : jsstring) (skip : nat) (s : jsstring)
  : jsstring :=
  match s with
  | [] => []
  | c :: s' =>
      match skip with
      | S k => strip_marker_from marker k s'
      | O =>
          if startsWith s marker then
            strip_marker_from marker
              (length marker + leading_spaces (skipn (length marker) s) - 1)
              s'
          else c :: strip_marker_from marker 0 s'
      end
  end.

Definition strip_marker (marker s : jsstring) : jsstring :=
  strip_marker_from marker 0 s.

(** ** Shapes of a response and categories of a failure *)

(** The two shapes the interface announces: the success object, and the
    failure object with [error] and [success: false]. *)
Definition announced_success (b : json) : Prop :=
  field "success" b = Some (JBool true)
  /\ field "result" b <> None /\ field "metadata" b <> None.
Definition announced_failure (b : json) : Prop :=
  field "error" b <> None /\ field "success" b = Some (JBool false).
Definition announced_shape (r : Response) : Prop :=
  exists b, body r = Some b /\ (announced_success b \/ announced_failure b).

(** The three shapes the handlers produce. *)
Definition success_shape (r : Response) : Prop :=
  statusCode r = 200
  /\ exists result metadata,
      body r = Some (JObj [(lit "success", JBool true);
                           (lit "result", result);
                           (lit "metadata", metadata)]).
Definition validation_shape (r : Response) : Prop :=
  statusCode r = 400
  /\ exists message, body r = Some (JObj [(lit "error", JStr message)]).
Definition failure_shape (r : Response) : Prop :=
  statusCode r = 500
  /\ exists message,
      body r = Some (JObj [(lit "error", JStr message);
                           (lit "success", JBool false)]).

(** The user-facing message of a failure of the model, by the
    substrings of its message, the first category that applies. *)
Definition categorized (message user : jsstring) : Prop :=
  (includes message (lit "API_KEY_INVALID") = true ->
   user = lit "Invalid Gemini API key")
  /\ (includes message (lit "API_KEY_INVALID") = false ->
      includes message (lit "QUOTA_EXCEEDED") = true ->
      user = lit "API quota exceeded. Please try again later.")
  /\ (includes message (lit "API_KEY_INVALID") = false ->
      includes message (lit "QUOTA_EXCEEDED") = false ->
      includes message (lit "SAFETY") = true ->
      user = lit "Content was blocked by safety filters. "
             ++ lit "Please try with different content.")
  /\ (includes message (lit "API_KEY_INVALID") = false ->
      includes message (lit "QUOTA_EXCEEDED") = false ->
      includes message (lit "SAFETY") = false ->
      user = lit "Gemini API request failed: " ++ message).

(** ** Concrete requests and replies *)

Module Examples.
Import Builtins.

(** A literal in which each single quote stands for a double quote. *)
Definition sq (s : string) : jsstring :=
  map (fun c => if (c =? 39)%N then dquote else c) (lit s).

Definition pdf_ok (t : option jsstring) (b : Buffer) : outcome PdfData :=
  Ret {| text := t |}.
Definition pdf_fails (b : Buffer) : outcome PdfData :=
  Throw (lit "Invalid PDF structure").
Definition docx_ok (t : option jsstring) (b : Buffer) : outcome RawText :=
  Ret {| value := t |}.
Definition docx_fails (b : Buffer) : outcome RawText :=
  Throw (lit "Could not find file in options").
Definition model_replies (reply apiKey prompt : jsstring) : outcome jsstring :=
  Ret reply.
Definition model_fails (message apiKey prompt : jsstring) : outcome jsstring :=
  Throw message.

Definition test_key : option jsstring := Some (lit "test-key").

(** A reply in plain JSON inside a code fence. *)
Definition reply_fenced : jsstring :=
  fence ++ lit "json" ++ [newline]
  ++ sq "{'score': '9/10', 'feedback': 'Good work'}" ++ [newline] ++ fence.

(** A reply whose feedback is an array, after some prose. *)
Definition reply_array : jsstring :=
  sq "Result: {'score': '8/10', "
  ++ sq "'feedback': ['Clear structure', 'Weak conclusion']}".

(** A reply whose feedback is an array of one empty string. *)
Definition reply_empty_array : jsstring :=
  sq "Result: {'score': '7/10', 'feedback': ['']}".

(** A reply that is too short to be used. *)
Definition reply_short : jsstring := lit "n/a".

Definition bytes (s : string) : Buffer := list_byte_of_string s.

Definition essay_pdf : Server.UploadedFile :=
  {| Server.originalname := lit "Essay.PDF";
     Server.buffer := Some (bytes "%PDF-1.4") |}.
Definition rubric_docx : Server.UploadedFile :=
  {| Server.originalname := lit "rubric.docx";
     Server.buffer := Some (bytes "PK") |}.
Definition rubric_txt : Server.UploadedFile :=
  {| Server.originalname := lit "rubric.txt";
     Server.buffer := Some (bytes "Clarity: 5 points") |}.
Definition blank_txt : Server.UploadedFile :=
  {| Server.originalname := lit "notes.txt";
     Server.buffer := Some (bytes "   ") |}.
Definition picture_png : Server.UploadedFile :=
  {| Server.originalname := lit "scan.png";
     Server.buffer := Some (bytes "PNG") |}.

Definition request (doc rubric : Server.UploadedFile) : Server.Request :=
  {| Server.pdfFile := Some doc; Server.rubricFile := Some rubric;
     Server.customInstructions := None |}.

(** Files of the serverless body; the contents are base64. *)
Definition essay_pdf64 : Netlify.FileField :=
  {| Netlify.content := Some (lit "JVBERi0xLjQ=");
     Netlify.filename := Some (lit "Essay.PDF") |}.
Definition rubric_docx64 : Netlify.FileField :=
  {| Netlify.content := Some (lit "UEs=");
     Netlify.filename := Some (lit "rubric.docx") |}.
Definition rubric_txt64 : Netlify.FileField :=
  {| Netlify.content := Some (lit "Q2xhcml0eTogNSBwb2ludHM=");
     Netlify.filename := Some (lit "rubric.txt") |}.
Definition blank_txt64 : Netlify.FileField :=
  {| Netlify.content := Some (lit "ICAg");
     Netlify.filename := Some (lit "notes.txt") |}.
Definition picture_png64 : Netlify.FileField :=
  {| Netlify.content := Some (lit "UE5H");
     Netlify.filename := Some (lit "scan.png") |}.

(** A world where both libraries succeed and the model replies. *)
Definition world_ok (reply : jsstring) : Externals :=
  world test_key (pdf_ok (Some (lit "Hello"))) (docx_ok (Some (lit "Rubric")))
    (model_replies reply).
(** A scanned PDF: the library finds two line feeds and nothing else. *)
Definition world_scanned : Externals :=
  world test_key (pdf_ok (Some [newline; newline]))
    (docx_ok (Some (lit "Rubric"))) (model_replies reply_fenced).
(** A PDF and a DOCX without text. *)
Definition world_no_text : Externals :=
  world test_key (pdf_ok None) (docx_ok (Some [])) (model_replies reply_fenced).
(** Both libraries throw. *)
Definition world_broken : Externals :=
  world test_key pdf_fails docx_fails (model_replies reply_fenced).
(** The model throws. *)
Definition world_model_down (message : jsstring) : Externals :=
  world test_key (pdf_ok (Some (lit "Hello"))) (docx_ok (Some (lit "Rubric")))
    (model_fails message).

(** No key in the environment. *)
Definition world_no_key : Externals :=
  world None (pdf_ok (Some (lit "Hello"))) (docx_ok (Some (lit "Rubric")))
    (model_replies reply_fenced).

Definition no_files : Server.Request :=
  {| Server.pdfFile := None; Server.rubricFile := None;
     Server.customInstructions := None |}.

Definition post_no_files : Netlify.Event :=
  {| Netlify.httpMethod := lit "POST";
     Netlify.parsed_body :=
       Ret {| Netlify.pdfFile := None; Netlify.rubricFile := None;
              Netlify.customInstructions := None |} |}.

Definition post (doc rubric : Netlify.FileField) : Netlify.Event :=
  {| Netlify.httpMethod := lit "POST";
     Netlify.parsed_body :=
       Ret {| Netlify.pdfFile := Some doc; Netlify.rubricFile := Some rubric;
              Netlify.customInstructions := None |} |}.
End Examples.

(** ** The CORS configuration of the server *)

Module ServerConfig.

(** [s.split(',')]: the pieces between the commas, the empty string
    giving one empty piece. *)
Fixpoint split_comma (s : jsstring) : list jsstring :=
  match s with
  | [] => [[]]
  | c :: s' =>
      if (c =? 44)%N then [] :: split_comma s'
      else
        match split_comma s' with
        | piece :: pieces => (c :: piece) :: pieces
        | [] => [[c]]
        end
  end.

(** [pieces.join(',')] *)
Fixpoint join_comma (pieces : list jsstring) : jsstring :=
  match pieces with
  | [] => []
  | [piece] => piece
  | piece :: rest => piece ++ 44%N :: join_comma rest
  end.

(** The value of [origin]: the string ['*'] or an array of origins. *)
Inductive Origin : Type :=
| AnyOrigin
| Origins (allowed : list jsstring).

(** [corsOptions.origin], from [process.env.ALLOWED_ORIGINS]. *)
Definition corsOrigin (ALLOWED_ORIGINS : option jsstring) : Origin :=
  if truthy ALLOWED_ORIGINS
  then Origins (split_comma (or_else ALLOWED_ORIGINS []))
  else AnyOrigin.

End ServerConfig.

(** ** Further requests *)

Module MoreExamples.
Import Builtins Examples.


(** A document without its rubric. *)
Definition only_document : Server.Request :=
  {| Server.pdfFile := Some essay_pdf; Server.rubricFile := None;
     Server.customInstructions := None |}.

(** A picture without a rubric. *)
Definition only_picture : Server.Request :=
  {| Server.pdfFile := Some picture_png; Server.rubricFile := None;
     Server.customInstructions := None |}.

Definition post_only_picture : Netlify.Event :=
  {| Netlify.httpMethod := lit "POST";
     Netlify.parsed_body :=
       Ret {| Netlify.pdfFile := Some picture_png64;
              Netlify.rubricFile := None;
              Netlify.customInstructions := None |} |}.

Definition get_request : Netlify.Event :=
  {| Netlify.httpMethod := lit "GET";
     Netlify.parsed_body := Throw (lit "Unexpected end of JSON input") |}.

Definition options_request : Netlify.Event :=
  {| Netlify.httpMethod := lit "OPTIONS";
     Netlify.parsed_body := Throw (lit "Unexpected end of JSON input") |}.
End MoreExamples.

(** ** Paths of the handlers and calls of a request *)

(** The first character, if any, is not white space. *)
Definition no_leading_space (s : jsstring) : Prop :=
  match s with
  | c :: _ => is_space c = false
  | [] => True
  end.

Definition not_generate (e : extcall) : bool := negb (is_generate e).

(** The calls a request may add to the trace: at most two of the
    extractors, then at most one of the model. *)
Definition request_calls (before after : list extcall) : Prop :=
  exists extractions generation : list extcall,
    after = before ++ extractions ++ generation
    /\ length extractions <= 2
    /\ forallb not_generate extractions = true
    /\ (generation = []
        \/ exists apiKey prompt, generation = [CallGenerate apiKey prompt]).

Section Paths.
Context {E : Externals}.

(** The five paths of the route of the server. *)
Inductive server_path (req : Server.Request) (tr : list extcall)
  : Response * list extcall -> Prop :=
| SNoDocument :
    Server.pdfFile req = None ->
    server_path req tr (respond 400 (error_only msg_pdf_required), tr)
| SNoRubric (f1 : Server.UploadedFile) :
    Server.pdfFile req = Some f1 ->
    Server.rubricFile req = None ->
    server_path req tr (respond 400 (error_only msg_rubric_required), tr)
| SDocumentFails (f1 f2 : Server.UploadedFile) (message : jsstring)
                 (tr1 : list extcall) :
    Server.pdfFile req = Some f1 ->
    Server.rubricFile req = Some f2 ->
    Server.extractTextFromFile (Some f1) tr = (Throw message, tr1) ->
    server_path req tr (respond 500 (error_failed message), tr1)
| SRubricFails (f1 f2 : Server.UploadedFile) (documentText message : jsstring)
               (tr1 tr2 : list extcall) :
    Server.pdfFile req = Some f1 ->
    Server.rubricFile req = Some f2 ->
    Server.extractTextFromFile (Some f1) tr = (Ret documentText, tr1) ->
    Server.extractTextFromFile (Some f2) tr1 = (Throw message, tr2) ->
    server_path req tr (respond 500 (error_failed message), tr2)
| SExtracted (f1 f2 : Server.UploadedFile) (documentText rubricText : jsstring)
             (tr1 tr2 : list extcall) :
    Server.pdfFile req = Some f1 ->
    Server.rubricFile req = Some f2 ->
    Server.extractTextFromFile (Some f1) tr = (Ret documentText, tr1) ->
    Server.extractTextFromFile (Some f2) tr1 = (Ret rubricText, tr2) ->
    server_path req tr
      (if is_empty (trim documentText) then
         (respond 400 (error_only msg_no_text_pdf), tr2)
       else if is_empty (trim rubricText) then
         (respond 400 (error_only msg_no_text_rubric), tr2)
       else
         match Server.callGeminiAPI documentText rubricText
                 (Server.customInstructions req) tr2 with
         | (Ret result, tr3) =>
             (respond 200
                (success_members result documentText rubricText now_iso), tr3)
         | (Throw message, tr3) => (respond 500 (error_failed message), tr3)
         end).

(** The paths of the serverless handler. *)
Inductive netlify_path (event : Netlify.Event) (tr : list extcall)
  : Response * list extcall -> Prop :=
| NOptions :
    Netlify.httpMethod event = lit "OPTIONS" ->
    netlify_path event tr ({| statusCode := 200; body := None |}, tr)
| NOtherMethod :
    Netlify.httpMethod event <> lit "OPTIONS" ->
    Netlify.httpMethod event <> lit "POST" ->
    netlify_path event tr
      (respond 405 (error_only (lit "Method not allowed")), tr)
| NBadBody (message : jsstring) :
    Netlify.httpMethod event = lit "POST" ->
    Netlify.parsed_body event = Throw message ->
    netlify_path event tr (respond 500 (error_failed message), tr)
| NNoDocument (b : Netlify.Body) :
    Netlify.httpMethod event = lit "POST" ->
    Netlify.parsed_body event = Ret b ->
    Netlify.missing (Netlify.pdfFile b) = true ->
    netlify_path event tr (respond 400 (error_only msg_pdf_required), tr)
| NNoRubric (b : Netlify.Body) :
    Netlify.httpMethod event = lit "POST" ->
    Netlify.parsed_body event = Ret b ->
    Netlify.missing (Netlify.pdfFile b) = false ->
    Netlify.missing (Netlify.rubricFile b) = true ->
    netlify_path event tr (respond 400 (error_only msg_rubric_required), tr)
| NDocumentFails (b : Netlify.Body) (message : jsstring) (tr1 : list extcall) :
    Netlify.httpMethod event = lit "POST" ->
    Netlify.parsed_body event = Ret b ->
    Netlify.missing (Netlify.pdfFile b) = false ->
    Netlify.missing (Netlify.rubricFile b) = false ->
    Netlify.extractTextFromFile (Netlify.content_of (Netlify.pdfFile b))
      (Netlify.filename_of (Netlify.pdfFile b)) tr = (Throw message, tr1) ->
    netlify_path event tr (respond 500 (error_failed message), tr1)
| NRubricFails (b : Netlify.Body) (documentText message : jsstring)
               (tr1 tr2 : list extcall) :
    Netlify.httpMethod event = lit "POST" ->
    Netlify.parsed_body event = Ret b ->
    Netlify.missing (Netlify.pdfFile b) = false ->
    Netlify.missing (Netlify.rubricFile b) = false ->
    Netlify.extractTextFromFile (Netlify.content_of (Netlify.pdfFile b))
      (Netlify.filename_of (Netlify.pdfFile b)) tr = (Ret documentText, tr1) ->
    Netlify.extractTextFromFile (Netlify.content_of (Netlify.rubricFile b))
      (Netlify.filename_of (Netlify.rubricFile b)) tr1 = (Throw message, tr2) ->
    netlify_path event tr (respond 500 (error_failed message), tr2)
| NExtracted (b : Netlify.Body) (documentText rubricText : jsstring)
             (tr1 tr2 : list extcall) :
    Netlify.httpMethod event = lit "POST" ->
    Netlify.parsed_body event = Ret b ->
    Netlify.missing (Netlify.pdfFile b) = false ->
    Netlify.missing (Netlify.rubricFile b) = false ->
    Netlify.extractTextFromFile (Netlify.content_of (Netlify.pdfFile b))
      (Netlify.filename_of (Netlify.pdfFile b)) tr = (Ret documentText, tr1) ->
    Netlify.extractTextFromFile (Netlify.content_of (Netlify.rubricFile b))
      (Netlify.filename_of (Netlify.rubricFile b)) tr1 = (Ret rubricText, tr2) ->
    netlify_path event tr
      (if is_empty (trim documentText) then
         (respond 400 (error_only msg_no_text_pdf), tr2)
       else if is_empty (trim rubricText) then
         (respond 400 (error_only msg_no_text_rubric), tr2)
       else
         match Netlify.callGeminiAPI documentText rubricText
                 (Netlify.customInstructions b) tr2 with
         | (Ret result, tr3) =>
             (respond 200
                (success_members result documentText rubricText now_iso), tr3)
         | (Throw message, tr3) => (respond 500 (error_failed message), tr3)
         end).

End Paths.

(** * Properties *)

(** ** Strings *)

Lemma startsWith_head_neq (s p q : jsstring) (a b : char16) :
  a <> b -> startsWith s (a :: p) = true -> startsWith s (b :: q) = false.
Proof.
  intros Hab. destruct s as [|c s']; simpl; [discriminate|].
  destruct (N.eqb_spec a c) as [->|]; [|discriminate].
  intros _. destruct (N.eqb_spec b c) as [->|]; [congruence|reflexivity].
Qed.

(** Evaluates the reversed literals of the goal. *)
Ltac eval_suffixes :=
  repeat match goal with
         | |- context [rev (lit ?w)] =>
             let x := eval vm_compute in (rev (lit w)) in
             change (rev (lit w)) with x
         end.

(** No name has two of the three supported suffixes. *)
Lemma suffix_pdf_only (s : jsstring) :
  endsWith s (lit ".pdf") = true ->
  endsWith s (lit ".docx") = false /\ endsWith s (lit ".txt") = false.
Proof.
  unfold endsWith; eval_suffixes; intros H; split;
    eapply startsWith_head_neq; try exact H; discriminate.
Qed.

Lemma suffix_docx_only (s : jsstring) :
  endsWith s (lit ".docx") = true ->
  endsWith s (lit ".pdf") = false /\ endsWith s (lit ".txt") = false.
Proof.
  unfold endsWith; eval_suffixes; intros H; split;
    eapply startsWith_head_neq; try exact H; discriminate.
Qed.

Lemma suffix_txt_only (s : jsstring) :
  endsWith s (lit ".txt") = true ->
  endsWith s (lit ".pdf") = false /\ endsWith s (lit ".docx") = false.
Proof.
  unfold endsWith; eval_suffixes; intros H; split;
    eapply startsWith_head_neq; try exact H; discriminate.
Qed.

Lemma trimStart_length (s : jsstring) : length (trimStart s) <= length s.
Proof.
  induction s as [|c s IH]; simpl; [lia|].
  destruct (is_space c); simpl; lia.
Qed.

Lemma startsWith_length (s w : jsstring) :
  startsWith s w = true -> length w <= length s.
Proof.
  revert s; induction w as [|a w IH]; intros [|b s]; simpl; try lia;
    try discriminate.
  intros H. apply andb_true_iff in H as [_ H]. apply IH in H. lia.
Qed.

(** ** The matcher *)

Section MatcherFacts.
Variable R : Type.

(** A literal is matched exactly when the input starts with it. *)
Lemma lit_k_spec (w s : jsstring) (k : jsstring -> option R) :
  lit_k w s k = if startsWith s w then k (skipn (length w) s) else None.
Proof.
  revert s; induction w as [|a w IH]; intros s; simpl; [reflexivity|].
  destruct s as [|b s]; [reflexivity|].
  destruct (a =? b)%N; simpl; [apply IH|reflexivity].
Qed.

Lemma lit_k_inv (w s : jsstring) (k : jsstring -> option R) (x : R) :
  lit_k w s k = Some x ->
  exists s', k s' = Some x /\ length s' <= length s.
Proof.
  rewrite lit_k_spec. destruct (startsWith s w); [|discriminate].
  intros H. exists (skipn (length w) s). split; [exact H|].
  rewrite length_skipn. lia.
Qed.

(** A greedy run gives back characters only when the rest fails. *)
Lemma star_k_inv (p : char16 -> bool) (s : jsstring)
      (k : jsstring -> option R) (x : R) :
  star_k p s k = Some x ->
  exists s', k s' = Some x /\ length s' <= length s.
Proof.
  induction s as [|c s IH]; simpl.
  - intros H. exists []. split; [exact H|reflexivity].
  - destruct (p c).
    + destruct (star_k p s k) as [y|] eqn:Hs.
      * intros H. injection H as ->.
        destruct (IH eq_refl) as (s' & Hk & Hl).
        exists s'. split; [exact Hk|simpl; lia].
      * intros H. exists (c :: s). split; [exact H|reflexivity].
    + intros H. exists (c :: s). split; [exact H|reflexivity].
Qed.

(** When the rest cannot fail, a run of white space is taken whole. *)
Lemma star_k_space (s : jsstring) (f : jsstring -> R) :
  star_k is_space s (fun s' => Some (f s')) = Some (f (trimStart s)).
Proof.
  induction s as [|c s IH]; simpl; [reflexivity|].
  destruct (is_space c); [rewrite IH|]; reflexivity.
Qed.
End MatcherFacts.

(** A marker followed by white space, at the head of the input. *)
Lemma match_here_marker (w s : jsstring) :
  match_here (seqs [Lit w; Star is_space]) s =
  if startsWith s w then Some (trimStart (skipn (length w) s), []) else None.
Proof.
  unfold match_here, seqs. cbn [rmatch]. rewrite lit_k_spec.
  destruct (startsWith s w); [|reflexivity].
  apply (star_k_space (skipn (length w) s) (fun s' => (s', @nil jsstring))).
Qed.

(** The global replacement of a marker and its trailing white space by
    the empty string is the direct stripping. *)
Lemma replace_marker_strip (w : jsstring) :
  w <> [] ->
  forall (s : jsstring) (skip : nat),
    replace_from (seqs [Lit w; Star is_space]) [] skip s
    = strip_marker_from w skip s.
Proof.
  intros Hw. induction s as [|c s IH]; intros skip.
  - cbn [replace_from strip_marker_from]. destruct skip; [|reflexivity].
    rewrite match_here_marker. destruct w; [congruence|reflexivity].
  - cbn [replace_from strip_marker_from]. destruct skip as [|k]; [|apply IH].
    rewrite match_here_marker.
    destruct (startsWith (c :: s) w) eqn:Hsw.
    + pose proof (startsWith_length _ _ Hsw) as Hl.
      pose proof (trimStart_length (skipn (length w) (c :: s))) as Ht.
      rewrite length_skipn in Ht.
      assert (Hpos : 0 < length w) by (destruct w; [congruence|simpl; lia]).
      unfold leading_spaces. rewrite length_skipn.
      destruct (length (c :: s)
                - length (trimStart (skipn (length w) (c :: s))))
        as [|n] eqn:Hn; [lia|].
      simpl app. rewrite IH. f_equal. lia.
    + rewrite IH. reflexivity.
Qed.

Lemma exec_inv (r : regex) (s : jsstring) (caps : list jsstring) :
  exec r s = Some caps ->
  exists s0 rest, match_here r s0 = Some (rest, caps).
Proof.
  induction s as [|c s IH]; simpl.
  - destruct (match_here r []) as [[rest m]|] eqn:H; [|discriminate].
    intros E; injection E as ->. eauto.
  - destruct (match_here r (c :: s)) as [[rest m]|] eqn:H; [|exact IH].
    intros E; injection E as ->. eauto.
Qed.

(** A quoted field found by pattern has at least one character: the
    group is a [+]. *)
Lemma quoted_group_nonempty (key : jsstring) (s : jsstring)
      (caps : list jsstring) :
  exec (seqs [Lit key; Star is_space; chr dquote;
              Group (Plus (is_not dquote)); chr dquote]) s = Some caps ->
  group1 caps <> [].
Proof.
  intros H. apply exec_inv in H as (s0 & rest & H).
  unfold match_here, seqs, chr in H. cbn [rmatch] in H.
  apply lit_k_inv in H as (s1 & H & _).
  apply star_k_inv in H as (s2 & H & _).
  apply lit_k_inv in H as (s3 & H & _).
  destruct s3 as [|c s3]; [discriminate|].
  destruct (is_not dquote c); [|discriminate].
  apply star_k_inv in H as (s4 & H & Hl4).
  apply lit_k_inv in H as (s5 & H & _).
  injection H as _ <-. unfold group1. cbn [nth app].
  match goal with
  | |- firstn ?n _ <> [] => destruct n as [|m] eqn:Hn
  end.
  - exfalso. destruct (length s4); [discriminate|lia].
  - cbn [firstn]. discriminate.
Qed.

(** A global replacement by a non-empty string keeps a non-empty string
    non-empty. *)
Lemma replace_g_nonempty (r : regex) (rep s : jsstring) :
  rep <> [] -> s <> [] -> replace_g s r rep <> [].
Proof.
  intros Hrep Hs. destruct s as [|c s]; [congruence|].
  unfold replace_g. cbn [replace_from].
  destruct (match_here r (c :: s)) as [[rest m]|]; [|discriminate].
  destruct (length (c :: s) - length rest); destruct rep; try congruence;
    discriminate.
Qed.

(** ** Text extraction *)

Section Extraction.
Context {E : Externals}.

(** The PDF branch of the server: one call of the library, its failure
    wrapped. *)
Lemma server_pdf_run (buf : Buffer) (tr : list extcall) :
  Server.extractTextFromPDF buf tr =
  (match pdfParse_lib buf with
   | Ret data => Ret (or_else (text data) placeholder_pdf)
   | Throw message => Throw (lit "Failed to parse PDF: " ++ message)
   end, tr ++ [CallPdfParse buf]).
Proof.
  unfold Server.extractTextFromPDF, try_catch, bind, pdfParse, call, ret, throw.
  destruct (pdfParse_lib buf); reflexivity.
Qed.

Lemma server_docx_run (buf : Buffer) (tr : list extcall) :
  Server.extractTextFromDocx buf tr =
  (match mammoth_lib buf with
   | Ret result => Ret (or_else (value result) placeholder_docx)
   | Throw message => Throw (lit "Failed to parse DOCX: " ++ message)
   end, tr ++ [CallMammoth buf]).
Proof.
  unfold Server.extractTextFromDocx, try_catch, bind, extractRawText, call,
    ret, throw.
  destruct (mammoth_lib buf); reflexivity.
Qed.

(** What [extractTextFromFile] of the server does on a file with a
    buffer, by the suffix of the lowercased name. *)
Lemma server_extract_cases (f : Server.UploadedFile) (buf : Buffer)
      (tr : list extcall) :
  Server.buffer f = Some buf ->
  Server.extractTextFromFile (Some f) tr =
  let name := toLowerCase (Server.originalname f) in
  if endsWith name (lit ".pdf") then Server.extractTextFromPDF buf tr
  else if endsWith name (lit ".docx") then Server.extractTextFromDocx buf tr
  else if endsWith name (lit ".txt") then (Ret (toString_utf8 buf), tr)
  else (Throw msg_unsupported, tr).
Proof.
  intros Hb. unfold Server.extractTextFromFile. rewrite Hb. cbv zeta.
  repeat match goal with |- context [if ?b then _ else _] => destruct b end;
    reflexivity.
Qed.

Lemma netlify_extract_cases (file : option jsstring) (filename : jsstring)
      (tr : list extcall) :
  truthy file = true ->
  Netlify.extractTextFromFile file filename tr =
  let buffer := from_base64 (or_else file []) in
  let name := toLowerCase filename in
  if endsWith name (lit ".pdf") then
    (match pdfParse_lib buffer with
     | Ret data => Ret (or_else (text data) placeholder_pdf)
     | Throw message => Throw message
     end, tr ++ [CallPdfParse buffer])
  else if endsWith name (lit ".docx") then
    (match mammoth_lib buffer with
     | Ret result => Ret (or_else (value result) placeholder_docx)
     | Throw message => Throw message
     end, tr ++ [CallMammoth buffer])
  else if endsWith name (lit ".txt") then (Ret (toString_utf8 buffer), tr)
  else (Throw msg_unsupported, tr).
Proof.
  intros Hf. unfold Netlify.extractTextFromFile. rewrite Hf. cbv zeta.
  simpl negb. cbv iota.
  destruct (endsWith _ (lit ".pdf")).
  { unfold bind, pdfParse, call, ret.
    destruct (pdfParse_lib _); reflexivity. }
  destruct (endsWith _ (lit ".docx")).
  { unfold bind, extractRawText, call, ret.
    destruct (mammoth_lib _); reflexivity. }
  destruct (endsWith _ (lit ".txt")); reflexivity.
Qed.
End Extraction.


(** ** The call of the model and the normalizer *)

Section Normalizer.
Context {E : Externals}.

(** The key of the serverless function is never falsy. *)
Lemma netlify_apiKey_truthy : truthy Netlify.apiKey = true.
Proof.
  unfold Netlify.apiKey. destruct GEMINI_API_KEY as [[|c k]|]; reflexivity.
Qed.

Lemma netlify_apiKey_value :
  or_else Netlify.apiKey [] = or_else GEMINI_API_KEY Netlify.default_key.
Proof.
  unfold Netlify.apiKey. destruct GEMINI_API_KEY as [[|c k]|]; reflexivity.
Qed.

(** [callGeminiAPI] of the server: with a key, one call of the model,
    its reply normalized or its failure categorized. *)
Lemma server_call_run (documentText rubricText : jsstring)
      (customInstructions : option jsstring) (tr : list extcall) :
  Server.callGeminiAPI documentText rubricText customInstructions tr =
  if truthy GEMINI_API_KEY then
    let key := or_else GEMINI_API_KEY [] in
    let p := Server.prompt documentText rubricText customInstructions in
    (match generateContent_lib key p with
     | Ret content => Ret (Server.normalizeResponse content)
     | Throw message => Throw (categorize message)
     end, tr ++ [CallGenerate key p])
  else (Throw (lit "Gemini API key not configured on server"), tr).
Proof.
  unfold Server.callGeminiAPI. destruct (truthy GEMINI_API_KEY); simpl negb;
    cbv iota; [|reflexivity].
  unfold try_catch, bind, generateContent, call, ret, throw. cbv zeta.
  destruct (generateContent_lib _ _); reflexivity.
Qed.

Lemma netlify_call_run (documentText rubricText : jsstring)
      (customInstructions : option jsstring) (tr : list extcall) :
  Netlify.callGeminiAPI documentText rubricText customInstructions tr =
  let key := or_else GEMINI_API_KEY Netlify.default_key in
  let p := Netlify.prompt documentText rubricText customInstructions in
  (match generateContent_lib key p with
   | Ret content => Ret (Netlify.normalizeResponse content)
   | Throw message => Throw (categorize message)
   end, tr ++ [CallGenerate key p]).
Proof.
  unfold Netlify.callGeminiAPI. rewrite netlify_apiKey_truthy.
  rewrite netlify_apiKey_value. simpl negb. cbv iota zeta.
  unfold try_catch, bind, generateContent, call, ret, throw.
  destruct (generateContent_lib _ _); reflexivity.
Qed.

(** The two normalizers clean the reply in the same way. *)
Lemma cleanContent_strip (content : jsstring) :
  Server.cleanContent content
  = trim (strip_marker fence (strip_marker (fence ++ lit "json") content))
  /\ Netlify.cleanContent content = Server.cleanContent content.
Proof.
  split; [|reflexivity].
  unfold Server.cleanContent, replace_g, re_fence_json_ws, re_fence_ws,
    strip_marker.
  rewrite !replace_marker_strip by discriminate. reflexivity.
Qed.

(** Off the array branch of the server, the two normalizers agree. *)
Lemma normalizers_agree (content : jsstring) :
  JSON_parse (Server.cleanContent content) <> None
  \/ exec re_feedback content <> None
  \/ exec re_feedback_array content = None ->
  Server.normalizeResponse content = Netlify.normalizeResponse content.
Proof.
  intros H.
  unfold Server.normalizeResponse, Netlify.normalizeResponse,
    Netlify.cleanContent.
  fold (Server.cleanContent content).
  destruct (JSON_parse (Server.cleanContent content)) as [parsed|];
    [reflexivity|].
  unfold Server.extractedFeedback, Netlify.extractedFeedback,
    Server.extractedScore, Netlify.extractedScore.
  destruct (exec re_feedback content) as [m|]; [reflexivity|].
  destruct (exec re_feedback_array content) as [m|]; [|reflexivity].
  destruct H as [H|[H|H]]; congruence.
Qed.
End Normalizer.

(** Off the array branch the extracted feedback is never empty. *)
Lemma netlify_feedback_nonempty (content : jsstring) :
  Netlify.extractedFeedback content <> [].
Proof.
  unfold Netlify.extractedFeedback.
  destruct (exec re_feedback content) as [m|] eqn:Hm.
  - apply replace_g_nonempty; [discriminate|].
    exact (quoted_group_nonempty _ _ Hm).
  - cbv zeta.
    match goal with
    | |- (if is_empty ?c || _ then _ else _) <> [] =>
        destruct c; simpl; [discriminate|]
    end.
    match goal with
    | |- (if ?b then _ else _) <> [] => destruct b; discriminate
    end.
Qed.

Lemma server_feedback_nonempty (content : jsstring) :
  exec re_feedback content <> None \/ exec re_feedback_array content = None ->
  Server.extractedFeedback content <> [].
Proof.
  intros H. unfold Server.extractedFeedback.
  destruct (exec re_feedback content) as [m|] eqn:Hm.
  - apply replace_g_nonempty; [discriminate|].
    exact (quoted_group_nonempty _ _ Hm).
  - destruct (exec re_feedback_array content) as [m|] eqn:Ha;
      [destruct H; congruence|].
    cbv zeta.
    match goal with
    | |- (if is_empty ?c || _ then _ else _) <> [] =>
        destruct c; simpl; [discriminate|]
    end.
    match goal with
    | |- (if ?b then _ else _) <> [] => destruct b; discriminate
    end.
Qed.

(** ** The handlers *)

Lemma categorize_categorized (message : jsstring) :
  categorized message (categorize message).
Proof.
  unfold categorized, categorize.
  destruct (includes message (lit "API_KEY_INVALID"));
    destruct (includes message (lit "QUOTA_EXCEEDED"));
    destruct (includes message (lit "SAFETY"));
    repeat split; intros; try discriminate; reflexivity.
Qed.

Section Handlers.
Context {E : Externals}.

(** Extraction calls the extractors only. *)
Lemma server_extract_trace (file : option Server.UploadedFile)
      (tr tr' : list extcall) (o : outcome jsstring) :
  Server.extractTextFromFile file tr = (o, tr') ->
  filter is_generate tr' = filter is_generate tr.
Proof.
  destruct file as [f|]; [|intros H; injection H as _ <-; reflexivity].
  destruct (Server.buffer f) as [buf|] eqn:Hb.
  - rewrite (server_extract_cases f tr Hb). cbv zeta.
    rewrite server_pdf_run, server_docx_run.
    repeat match goal with
           | |- context [if ?b then _ else _] => destruct b
           end;
      intros H; injection H as _ <-; rewrite ?filter_app; simpl;
      rewrite ?app_nil_r; reflexivity.
  - unfold Server.extractTextFromFile. rewrite Hb.
    intros H; injection H as _ <-; reflexivity.
Qed.

Lemma netlify_extract_trace (file : option jsstring) (filename : jsstring)
      (tr tr' : list extcall) (o : outcome jsstring) :
  Netlify.extractTextFromFile file filename tr = (o, tr') ->
  filter is_generate tr' = filter is_generate tr.
Proof.
  destruct (truthy file) eqn:Hf.
  - rewrite (netlify_extract_cases file filename tr Hf). cbv zeta.
    repeat match goal with
           | |- context [if ?b then _ else _] => destruct b
           end;
      intros H; injection H as _ <-; rewrite ?filter_app; simpl;
      rewrite ?app_nil_r; reflexivity.
  - unfold Netlify.extractTextFromFile. rewrite Hf. simpl.
    intros H; injection H as _ <-; reflexivity.
Qed.

(** The route of the server once both texts are extracted. *)
Lemma server_analyze_run (req : Server.Request) (f1 f2 : Server.UploadedFile)
      (documentText rubricText : jsstring) (tr tr1 tr2 : list extcall) :
  Server.pdfFile req = Some f1 ->
  Server.rubricFile req = Some f2 ->
  Server.extractTextFromFile (Some f1) tr = (Ret documentText, tr1) ->
  Server.extractTextFromFile (Some f2) tr1 = (Ret rubricText, tr2) ->
  Server.post_analyze (Server.Uploaded req) tr =
  if is_empty (trim documentText) then
    (respond 400 (error_only msg_no_text_pdf), tr2)
  else if is_empty (trim rubricText) then
    (respond 400 (error_only msg_no_text_rubric), tr2)
  else
    match Server.callGeminiAPI documentText rubricText
            (Server.customInstructions req) tr2 with
    | (Ret result, tr3) =>
        (respond 200 (success_members result documentText rubricText now_iso),
         tr3)
    | (Throw message, tr3) => (respond 500 (error_failed message), tr3)
    end.
Proof.
  intros H1 H2 X1 X2.
  unfold Server.post_analyze, Server.analyze_try. rewrite H1, H2.
  unfold bind at 1. rewrite X1. unfold bind at 1. rewrite X2.
  destruct (is_empty (trim documentText)); [reflexivity|].
  destruct (is_empty (trim rubricText)); [reflexivity|].
  unfold bind, ret.
  destruct (Server.callGeminiAPI _ _ _ tr2) as [[result|message] tr3];
    reflexivity.
Qed.

(** The serverless handler once both texts are extracted. *)
Lemma netlify_handler_run (event : Netlify.Event) (b : Netlify.Body)
      (documentText rubricText : jsstring) (tr tr1 tr2 : list extcall) :
  Netlify.httpMethod event = lit "POST" ->
  Netlify.parsed_body event = Ret b ->
  Netlify.missing (Netlify.pdfFile b) = false ->
  Netlify.missing (Netlify.rubricFile b) = false ->
  Netlify.extractTextFromFile (Netlify.content_of (Netlify.pdfFile b))
    (Netlify.filename_of (Netlify.pdfFile b)) tr = (Ret documentText, tr1) ->
  Netlify.extractTextFromFile (Netlify.content_of (Netlify.rubricFile b))
    (Netlify.filename_of (Netlify.rubricFile b)) tr1 = (Ret rubricText, tr2) ->
  Netlify.handler event tr =
  if is_empty (trim documentText) then
    (respond 400 (error_only msg_no_text_pdf), tr2)
  else if is_empty (trim rubricText) then
    (respond 400 (error_only msg_no_text_rubric), tr2)
  else
    match Netlify.callGeminiAPI documentText rubricText
            (Netlify.customInstructions b) tr2 with
    | (Ret result, tr3) =>
        (respond 200 (success_members result documentText rubricText now_iso),
         tr3)
    | (Throw message, tr3) => (respond 500 (error_failed message), tr3)
    end.
Proof.
  intros Hm Hb H1 H2 X1 X2.
  unfold Netlify.handler, Netlify.handler_try. rewrite Hm, Hb, H1, H2.
  change (str_eqb (lit "POST") (lit "OPTIONS")) with false.
  change (str_eqb (lit "POST") (lit "POST")) with true.
  cbv iota. simpl negb. cbv iota.
  unfold bind at 1. rewrite X1. unfold bind at 1. rewrite X2.
  destruct (is_empty (trim documentText)); [reflexivity|].
  destruct (is_empty (trim rubricText)); [reflexivity|].
  unfold bind, ret.
  destruct (Netlify.callGeminiAPI _ _ _ tr2) as [[result|message] tr3];
    reflexivity.
Qed.

(** What the [try] block of the server returns is a success or a
    validation response. *)
Lemma server_try_shape (req : Server.Request) (tr tr' : list extcall)
      (r : Response) :
  Server.analyze_try req tr = (Ret r, tr') ->
  success_shape r \/ validation_shape r.
Proof.
  unfold Server.analyze_try.
  destruct (Server.pdfFile req) as [f1|].
  2:{ intros H; injection H as <- _. right. split; [reflexivity|].
      eexists; reflexivity. }
  destruct (Server.rubricFile req) as [f2|].
  2:{ intros H; injection H as <- _. right. split; [reflexivity|].
      eexists; reflexivity. }
  unfold bind at 1.
  destruct (Server.extractTextFromFile (Some f1) tr) as [[doc|m] tr1];
    [|discriminate].
  unfold bind at 1.
  destruct (Server.extractTextFromFile (Some f2) tr1) as [[rub|m] tr2];
    [|discriminate].
  destruct (is_empty (trim doc)).
  { intros H; injection H as <- _. right. split; [reflexivity|].
    eexists; reflexivity. }
  destruct (is_empty (trim rub)).
  { intros H; injection H as <- _. right. split; [reflexivity|].
    eexists; reflexivity. }
  unfold bind, ret.
  destruct (Server.callGeminiAPI _ _ _ tr2) as [[result|m] tr3];
    [|discriminate].
  intros H; injection H as <- _. left. split; [reflexivity|].
  do 2 eexists; reflexivity.
Qed.

Lemma netlify_try_shape (event : Netlify.Event) (tr tr' : list extcall)
      (r : Response) :
  Netlify.handler_try event tr = (Ret r, tr') ->
  success_shape r \/ validation_shape r.
Proof.
  unfold Netlify.handler_try.
  destruct (Netlify.parsed_body event) as [b|m]; [|discriminate].
  destruct (Netlify.missing (Netlify.pdfFile b)).
  { intros H; injection H as <- _. right. split; [reflexivity|].
    eexists; reflexivity. }
  destruct (Netlify.missing (Netlify.rubricFile b)).
  { intros H; injection H as <- _. right. split; [reflexivity|].
    eexists; reflexivity. }
  unfold bind at 1.
  destruct (Netlify.extractTextFromFile _ _ tr) as [[doc|m] tr1];
    [|discriminate].
  unfold bind at 1.
  destruct (Netlify.extractTextFromFile _ _ tr1) as [[rub|m] tr2];
    [|discriminate].
  destruct (is_empty (trim doc)).
  { intros H; injection H as <- _. right. split; [reflexivity|].
    eexists; reflexivity. }
  destruct (is_empty (trim rub)).
  { intros H; injection H as <- _. right. split; [reflexivity|].
    eexists; reflexivity. }
  unfold bind, ret.
  destruct (Netlify.callGeminiAPI _ _ _ tr2) as [[result|m] tr3];
    [|discriminate].
  intros H; injection H as <- _. left. split; [reflexivity|].
  do 2 eexists; reflexivity.
Qed.
End Handlers.

(** * The claims *)

Import Examples.
Unset Implicit Arguments.

(** C1. [extractTextFromFile] dispatches on the suffix of the lowercased
    file name, in both shells: a name ending in .pdf is handed to the PDF
    library (the only external call made), a name ending in .docx to the
    DOCX library, a name ending in .txt is decoded as UTF-8 without any
    external call, and any other name throws the unsupported-format error
    with the trace of external calls unchanged. *)
Theorem extractTextFromFile_dispatch (E : Externals) :
  (forall (f : Server.UploadedFile) (buf : Buffer) (tr : list extcall),
      Server.buffer f = Some buf ->
      let name := toLowerCase (Server.originalname f) in
      (endsWith name (lit ".pdf") = true ->
       Server.extractTextFromFile (Some f) tr = Server.extractTextFromPDF buf tr
       /\ snd (Server.extractTextFromFile (Some f) tr) = tr ++ [CallPdfParse buf])
      /\ (endsWith name (lit ".docx") = true ->
          Server.extractTextFromFile (Some f) tr = Server.extractTextFromDocx buf tr
          /\ snd (Server.extractTextFromFile (Some f) tr) = tr ++ [CallMammoth buf])
      /\ (endsWith name (lit ".txt") = true ->
          Server.extractTextFromFile (Some f) tr = (Ret (toString_utf8 buf), tr))
      /\ (endsWith name (lit ".pdf") = false ->
          endsWith name (lit ".docx") = false ->
          endsWith name (lit ".txt") = false ->
          Server.extractTextFromFile (Some f) tr = (Throw msg_unsupported, tr)))
  /\
  (forall (file : option jsstring) (filename : jsstring) (tr : list extcall),
      truthy file = true ->
      let buffer := from_base64 (or_else file []) in
      let name := toLowerCase filename in
      (endsWith name (lit ".pdf") = true ->
       Netlify.extractTextFromFile file filename tr =
       (match pdfParse_lib buffer with
        | Ret data => Ret (or_else (text data) placeholder_pdf)
        | Throw message => Throw message
        end, tr ++ [CallPdfParse buffer]))
      /\ (endsWith name (lit ".docx") = true ->
          Netlify.extractTextFromFile file filename tr =
          (match mammoth_lib buffer with
           | Ret result => Ret (or_else (value result) placeholder_docx)
           | Throw message => Throw message
           end, tr ++ [CallMammoth buffer]))
      /\ (endsWith name (lit ".txt") = true ->
          Netlify.extractTextFromFile file filename tr =
          (Ret (toString_utf8 buffer), tr))
      /\ (endsWith name (lit ".pdf") = false ->
          endsWith name (lit ".docx") = false ->
          endsWith name (lit ".txt") = false ->
          Netlify.extractTextFromFile file filename tr =
          (Throw msg_unsupported, tr))).
Proof.
  split.
  - intros f buf tr Hb name.
    pose proof (server_extract_cases f tr Hb) as Hc. cbv zeta in Hc.
    fold name in Hc. rewrite Hc.
    split; [|split; [|split]].
    + intros H. rewrite H. rewrite server_pdf_run. split; reflexivity.
    + intros H. destruct (suffix_docx_only _ H) as [H1 _]. rewrite H1, H.
      rewrite server_docx_run. split; reflexivity.
    + intros H. destruct (suffix_txt_only _ H) as [H1 H2]. rewrite H1, H2, H.
      reflexivity.
    + intros H1 H2 H3. rewrite H1, H2, H3. reflexivity.
  - intros file filename tr Hf buffer name.
    pose proof (netlify_extract_cases file filename tr Hf) as Hc.
    cbv zeta in Hc. fold buffer name in Hc. rewrite Hc.
    split; [|split; [|split]].
    + intros H. rewrite H. reflexivity.
    + intros H. destruct (suffix_docx_only _ H) as [H1 _]. rewrite H1, H.
      reflexivity.
    + intros H. destruct (suffix_txt_only _ H) as [H1 H2]. rewrite H1, H2, H.
      reflexivity.
    + intros H1 H2 H3. rewrite H1, H2, H3. reflexivity.
Qed.

Lemma extractTextFromFile_dispatch_witness :
  Server.extractTextFromFile (E := world_ok reply_fenced) (Some essay_pdf) []
  = (Ret (lit "Hello"), [CallPdfParse (bytes "%PDF-1.4")])
  /\ Server.extractTextFromFile (E := world_ok reply_fenced) (Some rubric_docx) []
     = (Ret (lit "Rubric"), [CallMammoth (bytes "PK")])
  /\ Server.extractTextFromFile (E := world_ok reply_fenced) (Some rubric_txt) []
     = (Ret (lit "Clarity: 5 points"), [])
  /\ Server.extractTextFromFile (E := world_ok reply_fenced) (Some picture_png) []
     = (Throw msg_unsupported, [])
  /\ Netlify.extractTextFromFile (E := world_ok reply_fenced)
       (Netlify.content essay_pdf64) (lit "Essay.PDF") []
     = (Ret (lit "Hello"), [CallPdfParse (bytes "%PDF-1.4")])
  /\ Netlify.extractTextFromFile (E := world_ok reply_fenced)
       (Netlify.content picture_png64) (lit "scan.png") []
     = (Throw msg_unsupported, []).
Proof.
  destruct (extractTextFromFile_dispatch (world_ok reply_fenced)) as [HS HN].
  split; [|split; [|split; [|split; [|split]]]].
  - destruct (HS essay_pdf (bytes "%PDF-1.4") [] eq_refl) as (H & _).
    destruct (H eq_refl) as [H1 _]. rewrite H1. reflexivity.
  - destruct (HS rubric_docx (bytes "PK") [] eq_refl) as (_ & H & _).
    destruct (H eq_refl) as [H1 _]. rewrite H1. reflexivity.
  - destruct (HS rubric_txt (bytes "Clarity: 5 points") [] eq_refl)
      as (_ & _ & H & _).
    rewrite (H eq_refl). reflexivity.
  - destruct (HS picture_png (bytes "PNG") [] eq_refl) as (_ & _ & _ & H).
    exact (H eq_refl eq_refl eq_refl).
  - destruct (HN (Netlify.content essay_pdf64) (lit "Essay.PDF") [] eq_refl)
      as (H & _).
    rewrite (H eq_refl). reflexivity.
  - destruct (HN (Netlify.content picture_png64) (lit "scan.png") [] eq_refl)
      as (_ & _ & _ & H).
    exact (H eq_refl eq_refl eq_refl).
Defined.

(** C2, as the code has it.  With a key configured on the server and the
    same reply of the model to both prompts, the two shells return the
    same result whenever the direct parse succeeds, or the quoted
    feedback pattern matches, or the array feedback pattern does not
    match.  In the remaining case the score is the same, the server
    takes the feedback from the items of the array and the serverless
    function from the cleaned-up reply (or the placeholder). *)
Theorem shells_agree_off_array_feedback (E : Externals)
        (documentText rubricText : jsstring)
        (customInstructions : option jsstring) (content : jsstring)
        (trS trN : list extcall) :
  truthy GEMINI_API_KEY = true ->
  generateContent_lib (or_else GEMINI_API_KEY [])
    (Server.prompt documentText rubricText customInstructions) = Ret content ->
  generateContent_lib (or_else GEMINI_API_KEY Netlify.default_key)
    (Netlify.prompt documentText rubricText customInstructions) = Ret content ->
  (JSON_parse (Server.cleanContent content) <> None
   \/ exec re_feedback content <> None
   \/ exec re_feedback_array content = None ->
   fst (Server.callGeminiAPI documentText rubricText customInstructions trS)
   = fst (Netlify.callGeminiAPI documentText rubricText customInstructions trN))
  /\
  (forall m : list jsstring,
      JSON_parse (Server.cleanContent content) = None ->
      exec re_feedback content = None ->
      exec re_feedback_array content = Some m ->
      fst (Server.callGeminiAPI documentText rubricText customInstructions trS)
      = Ret (JObj [(lit "score", JStr (Server.extractedScore content));
                   (lit "feedback",
                     JStr (trim (replace_g (replace_g (replace_g (group1 m)
                             re_dquote []) re_comma [newline])
                             re_escaped_n [newline])))])
      /\ fst (Netlify.callGeminiAPI documentText rubricText customInstructions
                trN)
         = Ret (JObj [(lit "score", JStr (Server.extractedScore content));
                      (lit "feedback",
                        JStr (Netlify.extractedFeedback content))])).
Proof.
  intros Hk HS HN.
  rewrite server_call_run, netlify_call_run, Hk. cbv zeta.
  rewrite HS, HN. cbn [fst]. split.
  - intros H. f_equal. apply normalizers_agree. exact H.
  - intros m Hp Hf Ha. split; f_equal.
    + unfold Server.normalizeResponse. rewrite Hp.
      unfold Server.extractedFeedback. rewrite Hf, Ha. reflexivity.
    + unfold Netlify.normalizeResponse, Netlify.cleanContent.
      fold (Server.cleanContent content). rewrite Hp. reflexivity.
Qed.

Lemma shells_agree_off_array_feedback_witness :
  fst (Server.callGeminiAPI (E := world_ok reply_fenced)
         (lit "Hello") (lit "Clarity: 5 points") None [])
  = fst (Netlify.callGeminiAPI (E := world_ok reply_fenced)
           (lit "Hello") (lit "Clarity: 5 points") None []).
Proof.
  apply (shells_agree_off_array_feedback (world_ok reply_fenced)
           (lit "Hello") (lit "Clarity: 5 points") None reply_fenced [] []);
    try reflexivity.
  left. vm_compute. discriminate.
Defined.

(** C2, as stated, fails: on a reply whose feedback is an array the
    server returns the items of the array and the serverless function
    the cleaned-up reply. *)
Lemma shells_differ_on_array_feedback :
  fst (Server.callGeminiAPI (E := world_ok reply_array)
         (lit "Hello") (lit "Clarity: 5 points") None [])
  = Ret (JObj [(lit "score", JStr (lit "8/10"));
               (lit "feedback",
                 JStr (lit "Clear structure" ++ newline
                         :: lit " Weak conclusion"))])
  /\ fst (Netlify.callGeminiAPI (E := world_ok reply_array)
            (lit "Hello") (lit "Clarity: 5 points") None [])
     = Ret (JObj [(lit "score", JStr (lit "8/10"));
                  (lit "feedback",
                    JStr (sq "Result: 'feedback': "
                          ++ sq "['Clear structure', 'Weak conclusion']}"))])
  /\ fst (Server.callGeminiAPI (E := world_ok reply_array)
            (lit "Hello") (lit "Clarity: 5 points") None [])
     <> fst (Netlify.callGeminiAPI (E := world_ok reply_array)
               (lit "Hello") (lit "Clarity: 5 points") None []).
Proof.
  split; [vm_compute; reflexivity|].
  split; [vm_compute; reflexivity|].
  vm_compute. discriminate.
Qed.

(** C3. For every reply of the model, in both shells, the normalizer
    first removes the code-fence markers (the fence followed by json and
    the bare fence, each with the white space after it), trims the
    result and parses it as JSON; when that parse succeeds the parsed
    value is the result, unchanged. *)
Theorem direct_parse_returned_unchanged (E : Externals) (content : jsstring)
        (parsed : json) :
  JSON_parse
    (trim (strip_marker fence (strip_marker (fence ++ lit "json") content)))
  = Some parsed ->
  Server.normalizeResponse content = parsed
  /\ Netlify.normalizeResponse content = parsed.
Proof.
  intros H. destruct (cleanContent_strip content) as [HS HN].
  unfold Server.normalizeResponse, Netlify.normalizeResponse.
  rewrite HN, HS, H. split; reflexivity.
Qed.

Lemma direct_parse_returned_unchanged_witness :
  JSON_parse (Externals := world_ok reply_fenced)
    (trim (strip_marker fence
             (strip_marker (fence ++ lit "json") reply_fenced)))
  = Some (JObj [(lit "score", JStr (lit "9/10"));
                (lit "feedback", JStr (lit "Good work"))])
  /\ Server.normalizeResponse (E := world_ok reply_fenced) reply_fenced
     = JObj [(lit "score", JStr (lit "9/10"));
             (lit "feedback", JStr (lit "Good work"))]
  /\ Netlify.normalizeResponse (E := world_ok reply_fenced) reply_fenced
     = JObj [(lit "score", JStr (lit "9/10"));
             (lit "feedback", JStr (lit "Good work"))].
Proof.
  split; [vm_compute; reflexivity|].
  apply (direct_parse_returned_unchanged (world_ok reply_fenced) reply_fenced).
  vm_compute; reflexivity.
Defined.

(** C4, at the input where the server breaks it: the direct parse of the
    reply fails, the quoted feedback pattern does not match, the array
    pattern does, and the feedback the server returns is the empty
    string. *)
Theorem server_array_feedback_empty :
  JSON_parse (Externals := world_ok reply_empty_array)
    (Server.cleanContent reply_empty_array) = None
  /\ exec re_feedback reply_empty_array = None
  /\ exec re_feedback_array reply_empty_array = Some [[dquote; dquote]]
  /\ Server.normalizeResponse (E := world_ok reply_empty_array)
       reply_empty_array
     = JObj [(lit "score", JStr (lit "7/10")); (lit "feedback", JStr [])]
  /\ fst (Server.callGeminiAPI (E := world_ok reply_empty_array)
            (lit "Hello") (lit "Clarity: 5 points") None [])
     = Ret (JObj [(lit "score", JStr (lit "7/10")); (lit "feedback", JStr [])]).
Proof.
  repeat split; vm_compute; reflexivity.
Qed.

(** C5, as the code has it.  Every response of the route, in both
    shells, has one of three shapes: status 200 with the members
    success (true), result and metadata; status 400 with the single
    member error (the validation failures carry no success member);
    status 500 with the members error and success (false). *)
Theorem response_shapes (E : Externals) :
  (forall (inc : Server.Incoming) (tr : list extcall),
      let r := fst (Server.post_analyze inc tr) in
      success_shape r \/ validation_shape r \/ failure_shape r)
  /\
  (forall (event : Netlify.Event) (tr : list extcall),
      Netlify.httpMethod event = lit "POST" ->
      let r := fst (Netlify.handler event tr) in
      success_shape r \/ validation_shape r \/ failure_shape r).
Proof.
  split.
  - intros [|req] tr r; subst r; unfold Server.post_analyze.
    + right; right. split; [reflexivity|]. eexists; reflexivity.
    + destruct (Server.analyze_try req tr) as [[resp|message] tr'] eqn:Ht.
      * cbn [fst]. destruct (server_try_shape _ _ Ht); auto.
      * right; right. split; [reflexivity|]. eexists; reflexivity.
  - intros event tr Hm r; subst r; unfold Netlify.handler. rewrite Hm.
    change (str_eqb (lit "POST") (lit "OPTIONS")) with false.
    change (str_eqb (lit "POST") (lit "POST")) with true.
    cbv iota. simpl negb. cbv iota.
    destruct (Netlify.handler_try event tr) as [[resp|message] tr'] eqn:Ht.
    + cbn [fst]. destruct (netlify_try_shape _ _ Ht); auto.
    + right; right. split; [reflexivity|]. eexists; reflexivity.
Qed.

Lemma response_shapes_witness :
  Netlify.httpMethod (post essay_pdf64 rubric_txt64) = lit "POST"
  /\ let r := fst (Netlify.handler (E := world_ok reply_fenced)
                     (post essay_pdf64 rubric_txt64) []) in
     success_shape r \/ validation_shape r \/ failure_shape r.
Proof.
  split; [reflexivity|].
  exact (proj2 (response_shapes (world_ok reply_fenced))
           (post essay_pdf64 rubric_txt64) [] eq_refl).
Defined.

(** C5, as stated, fails: the response to a request without files has
    status 400 and a body with the member error only, which is neither of
    the two announced shapes, in both shells. *)
Lemma validation_failure_has_no_success_member :
  (let r := fst (Server.post_analyze (E := world_ok reply_fenced)
                   (Server.Uploaded no_files) []) in
   r = respond 400 (error_only (lit "PDF file is required"))
   /\ ~ announced_shape r)
  /\
  (let r := fst (Netlify.handler (E := world_ok reply_fenced) post_no_files []) in
   r = respond 400 (error_only (lit "PDF file is required"))
   /\ ~ announced_shape r).
Proof.
  assert (H : ~ announced_shape
                (respond 400 (error_only (lit "PDF file is required")))).
  { intros (b & Hb & [(Hs & _)|(_ & Hs)]); injection Hb as <-;
      vm_compute in Hs; discriminate. }
  split; (split; [vm_compute; reflexivity|exact H]).
Qed.

(** C6. In both shells, an error thrown by the call of the model is
    categorized by the substrings of its message, the first that
    applies: API_KEY_INVALID gives the invalid-key message,
    QUOTA_EXCEEDED the quota message, SAFETY the safety message, and any
    other message is put behind the words Gemini API request failed;
    [callGeminiAPI] throws that message and the handler answers with
    status 500 and the message in the member error. *)
Theorem api_errors_categorized (E : Externals) :
  (forall (req : Server.Request) (f1 f2 : Server.UploadedFile)
          (documentText rubricText message : jsstring)
          (tr tr1 tr2 : list extcall),
      Server.pdfFile req = Some f1 ->
      Server.rubricFile req = Some f2 ->
      Server.extractTextFromFile (Some f1) tr = (Ret documentText, tr1) ->
      Server.extractTextFromFile (Some f2) tr1 = (Ret rubricText, tr2) ->
      is_empty (trim documentText) = false ->
      is_empty (trim rubricText) = false ->
      truthy GEMINI_API_KEY = true ->
      generateContent_lib (or_else GEMINI_API_KEY [])
        (Server.prompt documentText rubricText (Server.customInstructions req))
      = Throw message ->
      exists user : jsstring,
        categorized message user
        /\ fst (Server.callGeminiAPI documentText rubricText
                  (Server.customInstructions req) tr2) = Throw user
        /\ fst (Server.post_analyze (Server.Uploaded req) tr)
           = respond 500 [(lit "error", JStr user); (lit "success", JBool false)])
  /\
  (forall (event : Netlify.Event) (b : Netlify.Body)
          (documentText rubricText message : jsstring)
          (tr tr1 tr2 : list extcall),
      Netlify.httpMethod event = lit "POST" ->
      Netlify.parsed_body event = Ret b ->
      Netlify.missing (Netlify.pdfFile b) = false ->
      Netlify.missing (Netlify.rubricFile b) = false ->
      Netlify.extractTextFromFile (Netlify.content_of (Netlify.pdfFile b))
        (Netlify.filename_of (Netlify.pdfFile b)) tr = (Ret documentText, tr1) ->
      Netlify.extractTextFromFile (Netlify.content_of (Netlify.rubricFile b))
        (Netlify.filename_of (Netlify.rubricFile b)) tr1 = (Ret rubricText, tr2) ->
      is_empty (trim documentText) = false ->
      is_empty (trim rubricText) = false ->
      generateContent_lib (or_else GEMINI_API_KEY Netlify.default_key)
        (Netlify.prompt documentText rubricText (Netlify.customInstructions b))
      = Throw message ->
      exists user : jsstring,
        categorized message user
        /\ fst (Netlify.callGeminiAPI documentText rubricText
                  (Netlify.customInstructions b) tr2) = Throw user
        /\ fst (Netlify.handler event tr)
           = respond 500 [(lit "error", JStr user); (lit "success", JBool false)]).
Proof.
  split.
  - intros req f1 f2 doc rub message tr tr1 tr2 H1 H2 X1 X2 Hd Hr Hk Hg.
    exists (categorize message). split; [apply categorize_categorized|].
    rewrite (server_analyze_run req tr H1 H2 X1 X2), Hd, Hr.
    rewrite server_call_run, Hk. cbv zeta. rewrite Hg. split; reflexivity.
  - intros event b doc rub message tr tr1 tr2 Hm Hb H1 H2 X1 X2 Hd Hr Hg.
    exists (categorize message). split; [apply categorize_categorized|].
    rewrite (netlify_handler_run event tr Hm Hb H1 H2 X1 X2), Hd, Hr.
    rewrite netlify_call_run. cbv zeta. rewrite Hg. split; reflexivity.
Qed.

Lemma api_errors_categorized_witness :
  (exists user : jsstring,
      categorized (lit "[429] QUOTA_EXCEEDED for project") user
      /\ fst (Server.callGeminiAPI
                (E := world_model_down (lit "[429] QUOTA_EXCEEDED for project"))
                (lit "Hello") (lit "Clarity: 5 points") None
                [CallPdfParse (bytes "%PDF-1.4")]) = Throw user
      /\ fst (Server.post_analyze
                (E := world_model_down (lit "[429] QUOTA_EXCEEDED for project"))
                (Server.Uploaded (request essay_pdf rubric_txt)) [])
         = respond 500 [(lit "error", JStr user); (lit "success", JBool false)])
  /\
  (exists user : jsstring,
      categorized (lit "fetch failed") user
      /\ fst (Netlify.callGeminiAPI
                (E := world_model_down (lit "fetch failed"))
                (lit "Hello") (lit "Clarity: 5 points") None
                [CallPdfParse (bytes "%PDF-1.4")]) = Throw user
      /\ fst (Netlify.handler (E := world_model_down (lit "fetch failed"))
                (post essay_pdf64 rubric_txt64) [])
         = respond 500 [(lit "error", JStr user); (lit "success", JBool false)]).
Proof.
  split.
  - exact (proj1 (api_errors_categorized
                    (world_model_down (lit "[429] QUOTA_EXCEEDED for project")))
             (request essay_pdf rubric_txt) essay_pdf rubric_txt
             (lit "Hello") (lit "Clarity: 5 points")
             (lit "[429] QUOTA_EXCEEDED for project")
             [] [CallPdfParse (bytes "%PDF-1.4")]
             [CallPdfParse (bytes "%PDF-1.4")]
             eq_refl eq_refl eq_refl eq_refl eq_refl eq_refl eq_refl eq_refl).
  - exact (proj2 (api_errors_categorized (world_model_down (lit "fetch failed")))
             (post essay_pdf64 rubric_txt64)
             {| Netlify.pdfFile := Some essay_pdf64;
                Netlify.rubricFile := Some rubric_txt64;
                Netlify.customInstructions := None |}
             (lit "Hello") (lit "Clarity: 5 points") (lit "fetch failed")
             [] [CallPdfParse (bytes "%PDF-1.4")]
             [CallPdfParse (bytes "%PDF-1.4")]
             eq_refl eq_refl eq_refl eq_refl eq_refl eq_refl eq_refl eq_refl
             eq_refl).
Defined.

(** C7, as the code has it.  When the library throws on a .pdf or .docx
    file, the server fails with the message of the library behind the
    words Failed to parse PDF (or DOCX); the serverless function has no
    handler around the library and fails with the error of the library
    itself, its message unchanged.  Neither shell succeeds, and the
    library is the only external call made. *)
Theorem library_failure_propagates (E : Externals) :
  (forall (f : Server.UploadedFile) (buf : Buffer) (tr : list extcall)
          (message : jsstring),
      Server.buffer f = Some buf ->
      (endsWith (toLowerCase (Server.originalname f)) (lit ".pdf") = true ->
       pdfParse_lib buf = Throw message ->
       Server.extractTextFromFile (Some f) tr
       = (Throw (lit "Failed to parse PDF: " ++ message),
          tr ++ [CallPdfParse buf]))
      /\ (endsWith (toLowerCase (Server.originalname f)) (lit ".docx") = true ->
          mammoth_lib buf = Throw message ->
          Server.extractTextFromFile (Some f) tr
          = (Throw (lit "Failed to parse DOCX: " ++ message),
             tr ++ [CallMammoth buf])))
  /\
  (forall (file : option jsstring) (filename : jsstring) (tr : list extcall)
          (message : jsstring),
      truthy file = true ->
      (endsWith (toLowerCase filename) (lit ".pdf") = true ->
       pdfParse_lib (from_base64 (or_else file [])) = Throw message ->
       Netlify.extractTextFromFile file filename tr
       = (Throw message, tr ++ [CallPdfParse (from_base64 (or_else file []))]))
      /\ (endsWith (toLowerCase filename) (lit ".docx") = true ->
          mammoth_lib (from_base64 (or_else file [])) = Throw message ->
          Netlify.extractTextFromFile file filename tr
          = (Throw message, tr ++ [CallMammoth (from_base64 (or_else file []))]))).
Proof.
  split.
  - intros f buf tr message Hb.
    rewrite (server_extract_cases f tr Hb). cbv zeta. split.
    + intros Hn Hl. rewrite Hn, server_pdf_run, Hl. reflexivity.
    + intros Hn Hl. destruct (suffix_docx_only _ Hn) as [Hp _].
      rewrite Hp, Hn, server_docx_run, Hl. reflexivity.
  - intros file filename tr message Hf.
    rewrite (netlify_extract_cases file filename tr Hf). cbv zeta. split.
    + intros Hn Hl. rewrite Hn, Hl. reflexivity.
    + intros Hn Hl. destruct (suffix_docx_only _ Hn) as [Hp _].
      rewrite Hp, Hn, Hl. reflexivity.
Qed.

Lemma library_failure_propagates_witness :
  pdfParse_lib (Externals := world_broken) (bytes "%PDF-1.4")
  = Throw (lit "Invalid PDF structure")
  /\ Server.extractTextFromFile (E := world_broken) (Some essay_pdf) []
     = (Throw (lit "Failed to parse PDF: Invalid PDF structure"),
        [CallPdfParse (bytes "%PDF-1.4")])
  /\ Server.extractTextFromFile (E := world_broken) (Some rubric_docx) []
     = (Throw (lit "Failed to parse DOCX: Could not find file in options"),
        [CallMammoth (bytes "PK")])
  /\ Netlify.extractTextFromFile (E := world_broken)
       (Netlify.content essay_pdf64) (lit "Essay.PDF") []
     = (Throw (lit "Invalid PDF structure"), [CallPdfParse (bytes "%PDF-1.4")])
  /\ Netlify.extractTextFromFile (E := world_broken)
       (Netlify.content rubric_docx64) (lit "rubric.docx") []
     = (Throw (lit "Could not find file in options"), [CallMammoth (bytes "PK")]).
Proof.
  destruct (library_failure_propagates world_broken) as [HS HN].
  split; [reflexivity|].
  split; [|split; [|split]].
  - exact (proj1 (HS essay_pdf (bytes "%PDF-1.4") []
                    (lit "Invalid PDF structure") eq_refl) eq_refl eq_refl).
  - exact (proj2 (HS rubric_docx (bytes "PK") []
                    (lit "Could not find file in options") eq_refl)
             eq_refl eq_refl).
  - exact (proj1 (HN (Netlify.content essay_pdf64) (lit "Essay.PDF") []
                    (lit "Invalid PDF structure") eq_refl) eq_refl eq_refl).
  - exact (proj2 (HN (Netlify.content rubric_docx64) (lit "rubric.docx") []
                    (lit "Could not find file in options") eq_refl)
             eq_refl eq_refl).
Defined.

(** C7, as stated, fails in the serverless function: when pdf-parse
    throws, the error that leaves [extractTextFromFile] is the one of the
    library, not an error wrapping it, while the server wraps it. *)
Lemma netlify_does_not_wrap_library_failure :
  pdfParse_lib (Externals := world_broken) (bytes "%PDF-1.4")
  = Throw (lit "Invalid PDF structure")
  /\ fst (Netlify.extractTextFromFile (E := world_broken)
            (Netlify.content essay_pdf64) (lit "Essay.PDF") [])
     = Throw (lit "Invalid PDF structure")
  /\ fst (Netlify.extractTextFromFile (E := world_broken)
            (Netlify.content essay_pdf64) (lit "Essay.PDF") [])
     <> Throw (lit "Failed to parse PDF: " ++ lit "Invalid PDF structure")
  /\ fst (Server.extractTextFromFile (E := world_broken) (Some essay_pdf) [])
     = Throw (lit "Failed to parse PDF: " ++ lit "Invalid PDF structure").
Proof.
  split; [reflexivity|].
  split; [vm_compute; reflexivity|].
  split; [vm_compute; discriminate|vm_compute; reflexivity].
Qed.

(** C8. In the serverless function the key that is tested is never
    falsy, whatever the environment: the branch throwing that the key is
    not configured is never taken, and every call of [callGeminiAPI]
    reaches the model. *)
Theorem netlify_key_branch_unreachable (E : Externals) :
  truthy Netlify.apiKey = true
  /\ (GEMINI_API_KEY = None -> Netlify.apiKey = Some Netlify.default_key)
  /\ forall (documentText rubricText : jsstring)
            (customInstructions : option jsstring) (tr : list extcall),
      fst (Netlify.callGeminiAPI documentText rubricText customInstructions tr)
      <> Throw (lit "Gemini API key not configured")
      /\ snd (Netlify.callGeminiAPI documentText rubricText customInstructions
                tr)
         = tr ++ [CallGenerate (or_else GEMINI_API_KEY Netlify.default_key)
                    (Netlify.prompt documentText rubricText
                       customInstructions)].
Proof.
  split; [apply netlify_apiKey_truthy|].
  split.
  { intros H. unfold Netlify.apiKey. rewrite H. reflexivity. }
  intros d r c tr. rewrite netlify_call_run. cbv zeta. cbn [fst snd].
  split; [|reflexivity].
  destruct (generateContent_lib _ _) as [content|message]; [discriminate|].
  unfold categorize.
  destruct (includes message (lit "API_KEY_INVALID")); [discriminate|].
  destruct (includes message (lit "QUOTA_EXCEEDED")); [discriminate|].
  destruct (includes message (lit "SAFETY")); [discriminate|].
  discriminate.
Qed.

Lemma netlify_key_branch_unreachable_witness :
  GEMINI_API_KEY (Externals := world_no_key) = None
  /\ Netlify.apiKey (E := world_no_key) = Some Netlify.default_key.
Proof.
  split; [reflexivity|].
  exact (proj1 (proj2 (netlify_key_branch_unreachable world_no_key)) eq_refl).
Defined.

(** C9, as the code has it.  On a .pdf or .docx file on which the library
    succeeds, [extractTextFromFile] returns a non-empty string in both
    shells: the text of the library when it is a non-empty string, the
    placeholder otherwise, and the placeholder is not blank, so the
    empty-extraction check of the handler does not reject a file whose
    text is empty or missing.  A text that is non-empty is returned as it
    is, and the check (the trimmed text is empty) holds of the returned
    string exactly when the text of the library is non-empty and made of
    white space only. *)
Theorem extraction_yields_nonempty_text (E : Externals) :
  (forall (f : Server.UploadedFile) (buf : Buffer) (tr : list extcall),
      Server.buffer f = Some buf ->
      (forall data : PdfData,
          endsWith (toLowerCase (Server.originalname f)) (lit ".pdf") = true ->
          pdfParse_lib buf = Ret data ->
          exists s : jsstring,
            fst (Server.extractTextFromFile (Some f) tr) = Ret s /\ s <> []
            /\ (truthy (text data) = true -> text data = Some s)
            /\ (truthy (text data) = false ->
                s = lit "Unable to extract text from PDF"
                /\ is_empty (trim s) = false)
            /\ (is_empty (trim s) = true <->
                exists t, text data = Some t /\ t <> [] /\ trim t = []))
      /\
      (forall result : RawText,
          endsWith (toLowerCase (Server.originalname f)) (lit ".docx") = true ->
          mammoth_lib buf = Ret result ->
          exists s : jsstring,
            fst (Server.extractTextFromFile (Some f) tr) = Ret s /\ s <> []
            /\ (truthy (value result) = true -> value result = Some s)
            /\ (truthy (value result) = false ->
                s = lit "Unable to extract text from DOCX"
                /\ is_empty (trim s) = false)
            /\ (is_empty (trim s) = true <->
                exists t, value result = Some t /\ t <> [] /\ trim t = [])))
  /\
  (forall (file : option jsstring) (filename : jsstring) (tr : list extcall),
      truthy file = true ->
      (forall data : PdfData,
          endsWith (toLowerCase filename) (lit ".pdf") = true ->
          pdfParse_lib (from_base64 (or_else file [])) = Ret data ->
          exists s : jsstring,
            fst (Netlify.extractTextFromFile file filename tr) = Ret s /\ s <> []
            /\ (truthy (text data) = true -> text data = Some s)
            /\ (truthy (text data) = false ->
                s = lit "Unable to extract text from PDF"
                /\ is_empty (trim s) = false)
            /\ (is_empty (trim s) = true <->
                exists t, text data = Some t /\ t <> [] /\ trim t = []))
      /\
      (forall result : RawText,
          endsWith (toLowerCase filename) (lit ".docx") = true ->
          mammoth_lib (from_base64 (or_else file [])) = Ret result ->
          exists s : jsstring,
            fst (Netlify.extractTextFromFile file filename tr) = Ret s /\ s <> []
            /\ (truthy (value result) = true -> value result = Some s)
            /\ (truthy (value result) = false ->
                s = lit "Unable to extract text from DOCX"
                /\ is_empty (trim s) = false)
            /\ (is_empty (trim s) = true <->
                exists t, value result = Some t /\ t <> [] /\ trim t = []))).
Proof.
  assert (Hor : forall (v : option jsstring) (d : jsstring),
             d <> [] -> is_empty (trim d) = false ->
             or_else v d <> []
             /\ (truthy v = true -> v = Some (or_else v d))
             /\ (truthy v = false ->
                 or_else v d = d /\ is_empty (trim (or_else v d)) = false)
             /\ (is_empty (trim (or_else v d)) = true <->
                 exists t, v = Some t /\ t <> [] /\ trim t = [])).
  { intros v d Hd Ht.
    destruct v as [[|c v]|]; cbn [or_else truthy];
      (split; [auto; discriminate|]);
      (split; [auto; discriminate|]);
      (split; [auto; discriminate|]).
    - rewrite Ht. split; [discriminate|].
      intros (t & Hv & Hn & _). injection Hv as <-. congruence.
    - split.
      + intros H. exists (c :: v). split; [reflexivity|].
        split; [discriminate|].
        destruct (trim (c :: v)); [reflexivity|discriminate].
      + intros (t & Hv & _ & Hb). injection Hv as <-. rewrite Hb. reflexivity.
    - rewrite Ht. split; [discriminate|].
      intros (t & Hv & _). discriminate. }
  split.
  - intros f buf tr Hb.
    rewrite (server_extract_cases f tr Hb). cbv zeta. split.
    + intros data Hn Hl. rewrite Hn, server_pdf_run, Hl. cbn [fst].
      eexists; split; [reflexivity|].
      apply Hor; [discriminate|vm_compute; reflexivity].
    + intros result Hn Hl. destruct (suffix_docx_only _ Hn) as [Hp _].
      rewrite Hp, Hn, server_docx_run, Hl. cbn [fst].
      eexists; split; [reflexivity|].
      apply Hor; [discriminate|vm_compute; reflexivity].
  - intros file filename tr Hf.
    rewrite (netlify_extract_cases file filename tr Hf). cbv zeta. split.
    + intros data Hn Hl. rewrite Hn, Hl. cbn [fst].
      eexists; split; [reflexivity|].
      apply Hor; [discriminate|vm_compute; reflexivity].
    + intros result Hn Hl. destruct (suffix_docx_only _ Hn) as [Hp _].
      rewrite Hp, Hn, Hl. cbn [fst].
      eexists; split; [reflexivity|].
      apply Hor; [discriminate|vm_compute; reflexivity].
Qed.

Lemma extraction_yields_nonempty_text_witness :
  exists s : jsstring,
    fst (Server.extractTextFromFile (E := world_no_text) (Some essay_pdf) [])
    = Ret s
    /\ s <> []
    /\ (truthy (text {| text := None |}) = true -> None = Some s)
    /\ (truthy (text {| text := None |}) = false ->
        s = lit "Unable to extract text from PDF" /\ is_empty (trim s) = false)
    /\ (is_empty (trim s) = true <->
        exists t, text {| text := None |} = Some t /\ t <> [] /\ trim t = []).
Proof.
  exact (proj1 (proj1 (extraction_yields_nonempty_text world_no_text)
                  essay_pdf (bytes "%PDF-1.4") [] eq_refl)
           {| text := None |} eq_refl eq_refl).
Defined.

(** C9, as stated, fails: a scanned PDF for which the library returns
    two line feeds is extracted as that non-empty string, and the
    empty-extraction check of the handler rejects the request. *)
Lemma blank_pdf_text_is_rejected :
  pdfParse_lib (Externals := world_scanned) (bytes "%PDF-1.4")
  = Ret {| text := Some [newline; newline] |}
  /\ fst (Server.extractTextFromFile (E := world_scanned) (Some essay_pdf) [])
     = Ret [newline; newline]
  /\ Server.post_analyze (E := world_scanned)
       (Server.Uploaded (request essay_pdf rubric_txt)) []
     = (respond 400 (error_only msg_no_text_pdf),
        [CallPdfParse (bytes "%PDF-1.4")])
  /\ Netlify.handler (E := world_scanned) (post essay_pdf64 rubric_txt64) []
     = (respond 400 (error_only msg_no_text_pdf),
        [CallPdfParse (bytes "%PDF-1.4")]).
Proof.
  repeat split; vm_compute; reflexivity.
Qed.

(** C10, as the code has it.  In both shells the two extractions run
    before the texts are checked.  When both texts are extracted and the
    text of the document or the text of the rubric is empty or white
    space only, the handler answers with status 400 and a message that
    starts with Could not extract text.  When the document is extracted
    and the extraction of the rubric throws, the handler answers with
    status 500 and the message of that error, whatever the text of the
    document, blank included.  In both cases the model is not called: the
    trace has no more calls of the model than before the request. *)
Theorem blank_text_rejected_before_model (E : Externals) :
  (forall (req : Server.Request) (f1 f2 : Server.UploadedFile)
          (documentText rubricText : jsstring) (tr tr1 tr2 : list extcall),
      Server.pdfFile req = Some f1 ->
      Server.rubricFile req = Some f2 ->
      Server.extractTextFromFile (Some f1) tr = (Ret documentText, tr1) ->
      Server.extractTextFromFile (Some f2) tr1 = (Ret rubricText, tr2) ->
      trim documentText = [] \/ trim rubricText = [] ->
      exists message : jsstring,
        Server.post_analyze (Server.Uploaded req) tr
        = (respond 400 [(lit "error", JStr message)], tr2)
        /\ startsWith message (lit "Could not extract text") = true
        /\ filter is_generate tr2 = filter is_generate tr)
  /\
  (forall (event : Netlify.Event) (b : Netlify.Body)
          (documentText rubricText : jsstring) (tr tr1 tr2 : list extcall),
      Netlify.httpMethod event = lit "POST" ->
      Netlify.parsed_body event = Ret b ->
      Netlify.missing (Netlify.pdfFile b) = false ->
      Netlify.missing (Netlify.rubricFile b) = false ->
      Netlify.extractTextFromFile (Netlify.content_of (Netlify.pdfFile b))
        (Netlify.filename_of (Netlify.pdfFile b)) tr = (Ret documentText, tr1) ->
      Netlify.extractTextFromFile (Netlify.content_of (Netlify.rubricFile b))
        (Netlify.filename_of (Netlify.rubricFile b)) tr1 = (Ret rubricText, tr2) ->
      trim documentText = [] \/ trim rubricText = [] ->
      exists message : jsstring,
        Netlify.handler event tr
        = (respond 400 [(lit "error", JStr message)], tr2)
        /\ startsWith message (lit "Could not extract text") = true
        /\ filter is_generate tr2 = filter is_generate tr)
  /\
  (forall (req : Server.Request) (f1 f2 : Server.UploadedFile)
          (documentText message : jsstring) (tr tr1 tr2 : list extcall),
      Server.pdfFile req = Some f1 ->
      Server.rubricFile req = Some f2 ->
      Server.extractTextFromFile (Some f1) tr = (Ret documentText, tr1) ->
      Server.extractTextFromFile (Some f2) tr1 = (Throw message, tr2) ->
      Server.post_analyze (Server.Uploaded req) tr
      = (respond 500 [(lit "error", JStr message);
                      (lit "success", JBool false)], tr2)
      /\ filter is_generate tr2 = filter is_generate tr)
  /\
  (forall (event : Netlify.Event) (b : Netlify.Body)
          (documentText message : jsstring) (tr tr1 tr2 : list extcall),
      Netlify.httpMethod event = lit "POST" ->
      Netlify.parsed_body event = Ret b ->
      Netlify.missing (Netlify.pdfFile b) = false ->
      Netlify.missing (Netlify.rubricFile b) = false ->
      Netlify.extractTextFromFile (Netlify.content_of (Netlify.pdfFile b))
        (Netlify.filename_of (Netlify.pdfFile b)) tr = (Ret documentText, tr1) ->
      Netlify.extractTextFromFile (Netlify.content_of (Netlify.rubricFile b))
        (Netlify.filename_of (Netlify.rubricFile b)) tr1 = (Throw message, tr2) ->
      Netlify.handler event tr
      = (respond 500 [(lit "error", JStr message);
                      (lit "success", JBool false)], tr2)
      /\ filter is_generate tr2 = filter is_generate tr).
Proof.
  split; [|split; [|split]].
  - intros req f1 f2 doc rub tr tr1 tr2 H1 H2 X1 X2 Hblank.
    rewrite (server_analyze_run req tr H1 H2 X1 X2).
    assert (Htr : filter is_generate tr2 = filter is_generate tr).
    { rewrite (server_extract_trace _ _ X2). exact (server_extract_trace _ _ X1). }
    destruct (is_empty (trim doc)) eqn:Hd.
    + exists msg_no_text_pdf.
      split; [reflexivity|split; [reflexivity|exact Htr]].
    + destruct Hblank as [Hb|Hb]; [rewrite Hb in Hd; discriminate|].
      rewrite Hb. exists msg_no_text_rubric.
      split; [reflexivity|split; [reflexivity|exact Htr]].
  - intros event b doc rub tr tr1 tr2 Hm Hb H1 H2 X1 X2 Hblank.
    rewrite (netlify_handler_run event tr Hm Hb H1 H2 X1 X2).
    assert (Htr : filter is_generate tr2 = filter is_generate tr).
    { rewrite (netlify_extract_trace _ _ _ X2).
      exact (netlify_extract_trace _ _ _ X1). }
    destruct (is_empty (trim doc)) eqn:Hd.
    + exists msg_no_text_pdf.
      split; [reflexivity|split; [reflexivity|exact Htr]].
    + destruct Hblank as [Hx|Hx]; [rewrite Hx in Hd; discriminate|].
      rewrite Hx. exists msg_no_text_rubric.
      split; [reflexivity|split; [reflexivity|exact Htr]].
  - intros req f1 f2 doc message tr tr1 tr2 H1 H2 X1 X2. split.
    + unfold Server.post_analyze, Server.analyze_try. rewrite H1, H2.
      unfold bind at 1. rewrite X1. unfold bind at 1. rewrite X2.
      reflexivity.
    + rewrite (server_extract_trace _ _ X2).
      exact (server_extract_trace _ _ X1).
  - intros event b doc message tr tr1 tr2 Hm Hb H1 H2 X1 X2. split.
    + unfold Netlify.handler, Netlify.handler_try. rewrite Hm, Hb, H1, H2.
      change (str_eqb (lit "POST") (lit "OPTIONS")) with false.
      change (str_eqb (lit "POST") (lit "POST")) with true.
      cbv iota. simpl negb. cbv iota.
      unfold bind at 1. rewrite X1. unfold bind at 1. rewrite X2.
      reflexivity.
    + rewrite (netlify_extract_trace _ _ _ X2).
      exact (netlify_extract_trace _ _ _ X1).
Qed.

Lemma blank_text_rejected_before_model_witness :
  (trim (lit "Hello") = [] \/ trim (lit "   ") = [])
  /\ (exists message : jsstring,
         Server.post_analyze (E := world_ok reply_fenced)
           (Server.Uploaded (request essay_pdf blank_txt)) []
         = (respond 400 [(lit "error", JStr message)],
            [CallPdfParse (bytes "%PDF-1.4")])
         /\ startsWith message (lit "Could not extract text") = true
         /\ filter is_generate [CallPdfParse (bytes "%PDF-1.4")]
            = filter is_generate [])
  /\ (exists message : jsstring,
         Netlify.handler (E := world_ok reply_fenced)
           (post essay_pdf64 blank_txt64) []
         = (respond 400 [(lit "error", JStr message)],
            [CallPdfParse (bytes "%PDF-1.4")])
         /\ startsWith message (lit "Could not extract text") = true
         /\ filter is_generate [CallPdfParse (bytes "%PDF-1.4")]
            = filter is_generate [])
  /\ (Server.post_analyze (E := world_broken)
        (Server.Uploaded (request rubric_txt rubric_docx)) []
      = (respond 500
           [(lit "error",
              JStr (lit "Failed to parse DOCX: Could not find file in options"));
            (lit "success", JBool false)],
         [CallMammoth (bytes "PK")])
      /\ filter is_generate [CallMammoth (bytes "PK")] = filter is_generate [])
  /\ (Netlify.handler (E := world_broken) (post rubric_txt64 rubric_docx64) []
      = (respond 500
           [(lit "error", JStr (lit "Could not find file in options"));
            (lit "success", JBool false)],
         [CallMammoth (bytes "PK")])
      /\ filter is_generate [CallMammoth (bytes "PK")] = filter is_generate []).
Proof.
  split; [right; reflexivity|].
  destruct (blank_text_rejected_before_model (world_ok reply_fenced))
    as (HS & HN & _).
  destruct (blank_text_rejected_before_model world_broken)
    as (_ & _ & FS & FN).
  split; [|split; [|split]].
  - exact (HS (request essay_pdf blank_txt) essay_pdf blank_txt
             (lit "Hello") (lit "   ")
             [] [CallPdfParse (bytes "%PDF-1.4")]
             [CallPdfParse (bytes "%PDF-1.4")]
             eq_refl eq_refl eq_refl eq_refl (or_intror eq_refl)).
  - exact (HN (post essay_pdf64 blank_txt64)
             {| Netlify.pdfFile := Some essay_pdf64;
                Netlify.rubricFile := Some blank_txt64;
                Netlify.customInstructions := None |}
             (lit "Hello") (lit "   ")
             [] [CallPdfParse (bytes "%PDF-1.4")]
             [CallPdfParse (bytes "%PDF-1.4")]
             eq_refl eq_refl eq_refl eq_refl eq_refl eq_refl
             (or_intror eq_refl)).
  - exact (FS (request rubric_txt rubric_docx) rubric_txt rubric_docx
             (lit "Clarity: 5 points")
             (lit "Failed to parse DOCX: Could not find file in options")
             [] [] [CallMammoth (bytes "PK")]
             eq_refl eq_refl eq_refl eq_refl).
  - exact (FN (post rubric_txt64 rubric_docx64)
             {| Netlify.pdfFile := Some rubric_txt64;
                Netlify.rubricFile := Some rubric_docx64;
                Netlify.customInstructions := None |}
             (lit "Clarity: 5 points") (lit "Could not find file in options")
             [] [] [CallMammoth (bytes "PK")]
             eq_refl eq_refl eq_refl eq_refl eq_refl eq_refl).
Defined.

(** C10, as stated, fails: a document whose extracted text is three
    spaces, sent with a rubric on which the library throws, is answered
    with status 500 and the error of the rubric, not with status 400 and
    Could not extract text, in both shells. *)
Lemma blank_document_with_failing_rubric :
  (fst (Server.extractTextFromFile (E := world_broken) (Some blank_txt) [])
   = Ret (lit "   ")
   /\ trim (lit "   ") = []
   /\ Server.post_analyze (E := world_broken)
        (Server.Uploaded (request blank_txt rubric_docx)) []
      = (respond 500
           [(lit "error",
              JStr (lit "Failed to parse DOCX: Could not find file in options"));
            (lit "success", JBool false)],
         [CallMammoth (bytes "PK")])
   /\ statusCode (fst (Server.post_analyze (E := world_broken)
                         (Server.Uploaded (request blank_txt rubric_docx)) []))
      <> 400)
  /\
  (fst (Netlify.extractTextFromFile (E := world_broken)
          (Netlify.content blank_txt64) (lit "notes.txt") [])
   = Ret (lit "   ")
   /\ Netlify.handler (E := world_broken) (post blank_txt64 rubric_docx64) []
      = (respond 500
           [(lit "error", JStr (lit "Could not find file in options"));
            (lit "success", JBool false)],
         [CallMammoth (bytes "PK")])
   /\ statusCode (fst (Netlify.handler (E := world_broken)
                         (post blank_txt64 rubric_docx64) []))
      <> 400).
Proof.
  split; [split; [|split; [|split]]|split; [|split]];
    try (vm_compute; reflexivity); vm_compute; discriminate.
Qed.

(** * Further properties *)

Import MoreExamples.

(** ** Lists of code units *)

Lemma str_eqb_eq (a b : jsstring) : str_eqb a b = true <-> a = b.
Proof.
  revert b; induction a as [|x a IH]; intros [|y b]; simpl;
    try (split; [discriminate|discriminate]); [tauto|].
  rewrite andb_true_iff, N.eqb_eq, IH.
  split; [intros [-> ->]; reflexivity|intros H; injection H; auto].
Qed.

Lemma startsWith_app (w rest : jsstring) : startsWith (w ++ rest) w = true.
Proof.
  induction w as [|a w IH]; simpl; [reflexivity|].
  rewrite N.eqb_refl. exact IH.
Qed.

Lemma startsWith_weaken (m w rest : jsstring) :
  startsWith m w = true -> startsWith (m ++ rest) w = true.
Proof.
  revert m; induction w as [|a w IH]; intros [|b m]; simpl; auto;
    try discriminate.
  rewrite !andb_true_iff. intros [H1 H2]. split; [exact H1|apply IH, H2].
Qed.

Lemma includes_weaken_r (m w rest : jsstring) :
  includes m w = true -> includes (m ++ rest) w = true.
Proof.
  induction m as [|c m IH]; cbn [includes app].
  - rewrite orb_false_r. intros H.
    destruct w; [|destruct w; discriminate].
    destruct rest; reflexivity.
  - rewrite !orb_true_iff. intros [H|H].
    + left. exact (startsWith_weaken (c :: m) w rest H).
    + right. apply IH, H.
Qed.

Lemma includes_weaken_l (pre m w : jsstring) :
  includes m w = true -> includes (pre ++ m) w = true.
Proof.
  intros H. induction pre as [|c pre IH]; [exact H|].
  cbn [includes app]. rewrite IH. apply orb_true_r.
Qed.

Lemma includes_head (m w : jsstring) :
  startsWith m w = true -> includes m w = true.
Proof.
  intros H. destruct m; cbn [includes]; rewrite H; reflexivity.
Qed.

(** A string includes each of its substrings. *)
Lemma includes_infix (pre w post : jsstring) :
  includes (pre ++ w ++ post) w = true.
Proof.
  apply includes_weaken_l, includes_head, startsWith_app.
Qed.

(** ** The prompt *)

(** Finds the searched text behind a chain of concatenations. *)
Ltac find_infix :=
  repeat first [ apply includes_head, startsWith_app
               | apply includes_weaken_l ].

(** X1. The prompt of both shells holds the rubric text, the document
    text and the line of the instructions as they are, nothing escaped;
    instructions that are a non-empty string appear behind the words
    ADDITIONAL INSTRUCTIONS. *)
Theorem prompt_embeds_inputs (documentText rubricText : jsstring)
        (customInstructions : option jsstring) :
  (includes (Server.prompt documentText rubricText customInstructions)
     rubricText = true
   /\ includes (Server.prompt documentText rubricText customInstructions)
        documentText = true
   /\ includes (Netlify.prompt documentText rubricText customInstructions)
        rubricText = true
   /\ includes (Netlify.prompt documentText rubricText customInstructions)
        documentText = true)
  /\ (forall (c : char16) (s : jsstring),
         customInstructions = Some (c :: s) ->
         includes (Server.prompt documentText rubricText customInstructions)
           (lit "ADDITIONAL INSTRUCTIONS: " ++ c :: s) = true
         /\ includes (Netlify.prompt documentText rubricText customInstructions)
              (lit "ADDITIONAL INSTRUCTIONS: " ++ c :: s) = true).
Proof.
  unfold Server.prompt, Netlify.prompt, prompt_template.
  split; [repeat split; find_infix|].
  intros c s ->. cbn [instructions_line]. split; find_infix.
Qed.

Lemma prompt_embeds_inputs_witness :
  includes (Server.prompt (lit "Hello") (lit "Clarity: 5 points")
              (Some (lit "be strict")))
    (lit "ADDITIONAL INSTRUCTIONS: " ++ lit "be strict") = true
  /\ includes (Netlify.prompt (lit "Hello") (lit "Clarity: 5 points")
                 (Some (lit "be strict")))
       (lit "ADDITIONAL INSTRUCTIONS: " ++ lit "be strict") = true.
Proof.
  exact (proj2 (prompt_embeds_inputs (lit "Hello") (lit "Clarity: 5 points")
                  (Some (lit "be strict")))
           98%N (lit "e strict") eq_refl).
Defined.

(** ** The CORS configuration *)

Lemma split_comma_nonempty (s : jsstring) : ServerConfig.split_comma s <> [].
Proof.
  destruct s as [|c s]; simpl; [discriminate|].
  destruct (c =? 44)%N; [discriminate|].
  destruct (ServerConfig.split_comma s); discriminate.
Qed.

Lemma join_split_comma (s : jsstring) :
  ServerConfig.join_comma (ServerConfig.split_comma s) = s.
Proof.
  induction s as [|c s IH]; [reflexivity|].
  cbn [ServerConfig.split_comma].
  destruct (N.eqb_spec c 44) as [->|Hc].
  - pose proof (split_comma_nonempty s) as Hn.
    destruct (ServerConfig.split_comma s) as [|p ps]; [congruence|].
    cbn [ServerConfig.join_comma app]. cbn [ServerConfig.join_comma] in IH.
    rewrite IH. reflexivity.
  - pose proof (split_comma_nonempty s) as Hn.
    destruct (ServerConfig.split_comma s) as [|p ps]; [congruence|].
    destruct ps as [|p' ps]; cbn [ServerConfig.join_comma app] in *;
      rewrite IH; reflexivity.
Qed.

Lemma split_comma_pieces (s : jsstring) :
  Forall (fun piece => ~ In 44%N piece) (ServerConfig.split_comma s)
  /\ length (ServerConfig.split_comma s) = S (count_occ N.eq_dec s 44%N).
Proof.
  induction s as [|c s [IHf IHl]]; cbn [ServerConfig.split_comma count_occ].
  - split; [constructor; [intros []|constructor]|reflexivity].
  - destruct (N.eqb_spec c 44) as [->|Hc].
    + destruct (N.eq_dec 44 44); [|congruence].
      split; [constructor; [intros []|exact IHf]|simpl; rewrite IHl; reflexivity].
    + destruct (N.eq_dec c 44); [congruence|].
      pose proof (split_comma_nonempty s) as Hn.
      destruct (ServerConfig.split_comma s) as [|p ps]; [congruence|].
      inversion IHf as [|? ? Hp Hps]; subst. split; [|exact IHl].
      constructor; [|exact Hps].
      intros [H|H]; [congruence|exact (Hp H)].
Qed.

(** X2. The allowed origins of the server: every origin when
    ALLOWED_ORIGINS is unset or empty; otherwise the pieces of its value
    between the commas, one more than there are commas, none holding a
    comma, and joined by commas they give the value back: no piece is
    trimmed or dropped, an empty piece included. *)
Theorem cors_origins_from_environment (ALLOWED_ORIGINS : option jsstring) :
  (truthy ALLOWED_ORIGINS = false ->
   ServerConfig.corsOrigin ALLOWED_ORIGINS = ServerConfig.AnyOrigin)
  /\ (forall s : jsstring,
         ALLOWED_ORIGINS = Some s -> s <> [] ->
         exists pieces : list jsstring,
           ServerConfig.corsOrigin ALLOWED_ORIGINS = ServerConfig.Origins pieces
           /\ ServerConfig.join_comma pieces = s
           /\ Forall (fun piece => ~ In 44%N piece) pieces
           /\ length pieces = S (count_occ N.eq_dec s 44%N)).
Proof.
  split.
  - intros H. unfold ServerConfig.corsOrigin. rewrite H. reflexivity.
  - intros s -> Hs. exists (ServerConfig.split_comma s).
    destruct s as [|c s]; [congruence|].
    split; [reflexivity|]. split; [apply join_split_comma|].
    apply split_comma_pieces.
Qed.

Lemma cors_origins_from_environment_witness :
  exists pieces : list jsstring,
    ServerConfig.corsOrigin (Some (lit "https://a.example, https://b.example"))
    = ServerConfig.Origins pieces
    /\ ServerConfig.join_comma pieces = lit "https://a.example, https://b.example"
    /\ Forall (fun piece => ~ In 44%N piece) pieces
    /\ length pieces
       = S (count_occ N.eq_dec (lit "https://a.example, https://b.example") 44%N).
Proof.
  apply (proj2 (cors_origins_from_environment
                  (Some (lit "https://a.example, https://b.example")))
           (lit "https://a.example, https://b.example") eq_refl).
  discriminate.
Defined.

(** ** More on the matcher and the replacements *)

Lemma rmatch_seq (R : Type) (r1 r2 : regex) (s : jsstring)
      (caps : list jsstring) (k : jsstring -> list jsstring -> option R) :
  rmatch (Seq r1 r2) s caps k
  = rmatch r1 s caps (fun s' caps' => rmatch r2 s' caps' k).
Proof. reflexivity. Qed.

Lemma rmatch_lit (R : Type) (w s : jsstring) (caps : list jsstring)
      (k : jsstring -> list jsstring -> option R) :
  rmatch (Lit w) s caps k = lit_k w s (fun s' => k s' caps).
Proof. reflexivity. Qed.

Lemma rmatch_star (R : Type) (p : char16 -> bool) (s : jsstring)
      (caps : list jsstring) (k : jsstring -> list jsstring -> option R) :
  rmatch (Star p) s caps k = star_k p s (fun s' => k s' caps).
Proof. reflexivity. Qed.

(** A greedy run takes characters of the class only. *)
Lemma star_k_run (R : Type) (p : char16 -> bool) (s : jsstring)
      (k : jsstring -> option R) (x : R) :
  star_k p s k = Some x ->
  exists pre s', s = pre ++ s' /\ forallb p pre = true /\ k s' = Some x.
Proof.
  induction s as [|c s IH]; simpl.
  - intros H. exists [], []. auto.
  - destruct (p c) eqn:Hc.
    + destruct (star_k p s k) as [y|] eqn:Hs.
      * intros H. injection H as ->.
        destruct (IH eq_refl) as (pre & s' & -> & Hp & Hk).
        exists (c :: pre), s'. simpl. rewrite Hc, Hp. auto.
      * intros H. exists [], (c :: s). auto.
    + intros H. exists [], (c :: s). auto.
Qed.

(** What a group of one or more characters of a class captures. *)
Lemma group_plus_inv (R : Type) (p : char16 -> bool) (s : jsstring)
      (caps : list jsstring) (k : jsstring -> list jsstring -> option R)
      (x : R) :
  rmatch (Group (Plus p)) s caps k = Some x ->
  exists g s', s = g ++ s' /\ g <> [] /\ forallb p g = true
               /\ k s' (caps ++ [g]) = Some x.
Proof.
  cbn [rmatch]. destruct s as [|c t]; [discriminate|].
  destruct (p c) eqn:Hc; [|discriminate].
  intros H. apply star_k_run in H as (pre & s' & -> & Hp & Hk).
  exists (c :: pre), s'.
  split; [reflexivity|]. split; [discriminate|].
  split; [simpl; rewrite Hc, Hp; reflexivity|].
  assert (Hg : firstn (length (c :: pre ++ s') - length s') (c :: pre ++ s')
               = c :: pre).
  { change (c :: pre ++ s') with ((c :: pre) ++ s').
    replace (length ((c :: pre) ++ s') - length s')
      with (length (c :: pre) + 0) by (rewrite length_app; lia).
    rewrite firstn_app_2. simpl. rewrite app_nil_r. reflexivity. }
  rewrite Hg in Hk. exact Hk.
Qed.

(** The text found between two delimiters after a key: it is not empty
    and does not hold the closing delimiter. *)
Lemma delimited_group (key : jsstring) (opening closing : char16)
      (s : jsstring) (caps : list jsstring) :
  exec (seqs [Lit key; Star is_space; chr opening;
              Group (Plus (is_not closing)); chr closing]) s = Some caps ->
  exists g, caps = [g] /\ g <> [] /\ forallb (is_not closing) g = true.
Proof.
  intros H. apply exec_inv in H as (s0 & rest & H).
  unfold match_here, seqs, chr in H.
  rewrite rmatch_seq, rmatch_lit in H. apply lit_k_inv in H as (s1 & H & _).
  cbv beta in H. rewrite rmatch_seq, rmatch_star in H.
  apply star_k_inv in H as (s2 & H & _).
  cbv beta in H. rewrite rmatch_seq, rmatch_lit in H.
  apply lit_k_inv in H as (s3 & H & _).
  cbv beta in H. rewrite rmatch_seq in H.
  apply group_plus_inv in H as (g & s4 & _ & Hg & Hp & H).
  rewrite rmatch_lit in H. apply lit_k_inv in H as (s5 & H & _).
  injection H as _ <-. exists g. auto.
Qed.

Lemma forallb_is_not (c : char16) (g : jsstring) :
  forallb (is_not c) g = true -> ~ In c g.
Proof.
  rewrite forallb_forall. intros H Hin. specialize (H c Hin).
  unfold is_not in H. rewrite N.eqb_refl in H. discriminate.
Qed.




(** ** Trimming *)

Lemma trimStart_suffix (s : jsstring) :
  exists pre, s = pre ++ trimStart s.
Proof.
  induction s as [|c s [pre IH]]; simpl; [exists []; reflexivity|].
  destruct (is_space c).
  - exists (c :: pre). simpl. rewrite <- IH. reflexivity.
  - exists []. reflexivity.
Qed.

Lemma trimStart_no_leading_space (s : jsstring) :
  no_leading_space (trimStart s).
Proof.
  induction s as [|c s IH]; simpl; [exact I|].
  destruct (is_space c) eqn:Hc; [exact IH|exact Hc].
Qed.

Lemma trimStart_fixed (s : jsstring) :
  no_leading_space s -> trimStart s = s.
Proof.
  destruct s as [|c s]; simpl; [reflexivity|]. intros ->. reflexivity.
Qed.

(** [trim s] sits inside [s]. *)
Lemma trim_infix (s : jsstring) :
  exists pre post, s = pre ++ trim s ++ post.
Proof.
  unfold trim. destruct (trimStart_suffix s) as [pre Hpre].
  destruct (trimStart_suffix (rev (trimStart s))) as [post Hpost].
  exists pre, (rev post).
  rewrite <- rev_app_distr, <- Hpost, rev_involutive. exact Hpre.
Qed.

Lemma trim_no_leading_space (s : jsstring) : no_leading_space (trim s).
Proof.
  unfold trim.
  pose proof (trimStart_no_leading_space s) as Hu.
  destruct (trimStart_suffix (rev (trimStart s))) as [post Hpost].
  apply (f_equal (@rev char16)) in Hpost.
  rewrite rev_involutive, rev_app_distr in Hpost.
  destruct (rev (trimStart (rev (trimStart s)))) as [|c t]; [exact I|].
  rewrite Hpost in Hu. exact Hu.
Qed.

(** Trimming twice is trimming once. *)
Lemma trim_idempotent (s : jsstring) : trim (trim s) = trim s.
Proof.
  pose proof (trim_no_leading_space s) as H1.
  unfold trim at 1. rewrite (trimStart_fixed _ H1).
  unfold trim. rewrite rev_involutive.
  rewrite (trimStart_fixed _ (trimStart_no_leading_space _)). reflexivity.
Qed.


Lemma trim_includes (s w : jsstring) :
  includes (trim s) w = true -> includes s w = true.
Proof.
  intros H. destruct (trim_infix s) as (pre & post & Hs).
  rewrite Hs. apply includes_weaken_l, includes_weaken_r, H.
Qed.

(** ** What the replacements of the normalizer leave *)





Lemma strip_marker_from_skip (w : jsstring) :
  forall (s : jsstring) (k : nat),
    strip_marker_from w k s = strip_marker_from w 0 (skipn k s).
Proof.
  induction s as [|c s IH]; intros [|k]; try reflexivity.
  cbn [strip_marker_from skipn]. apply IH.
Qed.

Lemma startsWith_fence_head (s : jsstring) (c : char16) :
  startsWith (c :: s) fence = (96 =? c)%N && startsWith s [96%N; 96%N].
Proof. reflexivity. Qed.

(** The stripping of the fences puts a backtick first only where the
    text had one. *)
Lemma strip_fence_head1 (s : jsstring) :
  startsWith (strip_marker fence s) [96%N] = true ->
  startsWith s [96%N] = true.
Proof.
  unfold strip_marker. destruct s as [|c s]; [discriminate|].
  cbn [strip_marker_from].
  destruct (startsWith (c :: s) fence) eqn:Hm.
  - intros _. rewrite startsWith_fence_head in Hm.
    apply andb_true_iff in Hm as [Hc _]. cbn [startsWith]. rewrite Hc.
    reflexivity.
  - cbn [startsWith]. auto.
Qed.

Lemma strip_fence_head2 (s : jsstring) :
  startsWith (strip_marker fence s) [96%N; 96%N] = true ->
  startsWith s [96%N; 96%N] = true.
Proof.
  unfold strip_marker. destruct s as [|c s]; [discriminate|].
  cbn [strip_marker_from].
  destruct (startsWith (c :: s) fence) eqn:Hm.
  - intros _. rewrite startsWith_fence_head in Hm.
    apply andb_true_iff in Hm as [Hc Hm]. cbn [startsWith] in *.
    rewrite Hc. destruct s as [|d t]; [discriminate|].
    apply andb_true_iff in Hm as [Hd _]. rewrite Hd. reflexivity.
  - change (startsWith (c :: strip_marker_from fence 0 s) [96%N; 96%N])
      with ((96 =? c)%N && startsWith (strip_marker fence s) [96%N]).
    change (startsWith (c :: s) [96%N; 96%N])
      with ((96 =? c)%N && startsWith s [96%N]).
    intros H. apply andb_true_iff in H as [Hc H].
    rewrite Hc, (strip_fence_head1 _ H). reflexivity.
Qed.

(** No fence is left by the stripping of the fences. *)
Lemma strip_fence_complete (n : nat) :
  forall s : jsstring,
    length s <= n -> includes (strip_marker fence s) fence = false.
Proof.
  induction n as [|n IH]; intros [|c s] Hl; try (simpl in Hl; lia);
    try reflexivity.
  unfold strip_marker. cbn [strip_marker_from].
  destruct (startsWith (c :: s) fence) eqn:Hm.
  - rewrite strip_marker_from_skip. apply IH.
    rewrite length_skipn. simpl in Hl. lia.
  - cbn [includes]. fold (strip_marker fence s).
    rewrite (IH s) by (simpl in Hl; lia). rewrite orb_false_r.
    rewrite startsWith_fence_head in *.
    destruct ((96 =? c)%N); [|reflexivity]. cbn [andb] in *.
    destruct (startsWith (strip_marker fence s) [96%N; 96%N]) eqn:Hx;
      [|reflexivity].
    apply strip_fence_head2 in Hx. congruence.
Qed.

(** X3. The text that both shells hand to JSON.parse holds no code
    fence (three backticks in a row) and has no white space at either
    end, whatever the reply of the model. *)
Theorem cleaned_reply_has_no_fence (content : jsstring) :
  includes (Server.cleanContent content) fence = false
  /\ trim (Server.cleanContent content) = Server.cleanContent content
  /\ includes (Netlify.cleanContent content) fence = false
  /\ trim (Netlify.cleanContent content) = Netlify.cleanContent content.
Proof.
  assert (H : includes (Server.cleanContent content) fence = false
              /\ trim (Server.cleanContent content)
                 = Server.cleanContent content).
  { split.
    - unfold Server.cleanContent, replace_g, re_fence_json_ws, re_fence_ws.
      rewrite !replace_marker_strip by discriminate.
      match goal with
      | |- includes (trim ?x) fence = false =>
          destruct (includes (trim x) fence) eqn:Hi; [|reflexivity];
          apply trim_includes in Hi
      end.
      match type of Hi with
      | includes (strip_marker_from fence 0 ?x) fence = true =>
          pose proof (strip_fence_complete _ x (le_n _)) as Hc
      end.
      unfold strip_marker in Hc. congruence.
    - unfold Server.cleanContent. apply trim_idempotent. }
  destruct H as [H1 H2]. repeat split; assumption.
Qed.





(** ** The paths of the handlers *)

Section HandlerPaths.
Context {E : Externals}.

(** An extraction makes at most one external call, never one of the
    model. *)
Lemma server_extract_events (file : option Server.UploadedFile)
      (tr tr' : list extcall) (o : outcome jsstring) :
  Server.extractTextFromFile file tr = (o, tr') ->
  exists l, tr' = tr ++ l /\ length l <= 1 /\ forallb not_generate l = true.
Proof.
  destruct file as [f|];
    [|intros H; injection H as _ <-; exists []; rewrite app_nil_r; auto].
  destruct (Server.buffer f) as [buf|] eqn:Hb.
  - rewrite (server_extract_cases f tr Hb). cbv zeta.
    rewrite server_pdf_run, server_docx_run.
    repeat match goal with
           | |- context [if ?b then _ else _] => destruct b
           end;
      intros H; injection H as _ <-;
      first [ eexists [_]; split; [reflexivity|split; [auto|reflexivity]]
            | exists []; rewrite app_nil_r; auto ].
  - unfold Server.extractTextFromFile. rewrite Hb.
    intros H; injection H as _ <-. exists []. rewrite app_nil_r. auto.
Qed.

Lemma netlify_extract_events (file : option jsstring) (filename : jsstring)
      (tr tr' : list extcall) (o : outcome jsstring) :
  Netlify.extractTextFromFile file filename tr = (o, tr') ->
  exists l, tr' = tr ++ l /\ length l <= 1 /\ forallb not_generate l = true.
Proof.
  destruct (truthy file) eqn:Hf.
  - rewrite (netlify_extract_cases file filename tr Hf). cbv zeta.
    repeat match goal with
           | |- context [if ?b then _ else _] => destruct b
           end;
      intros H; injection H as _ <-;
      first [ eexists [_]; split; [reflexivity|split; [auto|reflexivity]]
            | exists []; rewrite app_nil_r; auto ].
  - unfold Netlify.extractTextFromFile. rewrite Hf. simpl.
    intros H; injection H as _ <-. exists []. rewrite app_nil_r. auto.
Qed.

(** The route of the server when the document cannot be extracted: the
    rubric is not looked at. *)
Lemma server_document_fails (req : Server.Request)
      (f1 f2 : Server.UploadedFile) (message : jsstring)
      (tr tr1 : list extcall) :
  Server.pdfFile req = Some f1 ->
  Server.rubricFile req = Some f2 ->
  Server.extractTextFromFile (Some f1) tr = (Throw message, tr1) ->
  Server.post_analyze (Server.Uploaded req) tr
  = (respond 500 (error_failed message), tr1).
Proof.
  intros H1 H2 X1. unfold Server.post_analyze, Server.analyze_try.
  rewrite H1, H2. unfold bind at 1. rewrite X1. reflexivity.
Qed.

Lemma server_rubric_fails (req : Server.Request)
      (f1 f2 : Server.UploadedFile) (documentText message : jsstring)
      (tr tr1 tr2 : list extcall) :
  Server.pdfFile req = Some f1 ->
  Server.rubricFile req = Some f2 ->
  Server.extractTextFromFile (Some f1) tr = (Ret documentText, tr1) ->
  Server.extractTextFromFile (Some f2) tr1 = (Throw message, tr2) ->
  Server.post_analyze (Server.Uploaded req) tr
  = (respond 500 (error_failed message), tr2).
Proof.
  intros H1 H2 X1 X2. unfold Server.post_analyze, Server.analyze_try.
  rewrite H1, H2. unfold bind at 1. rewrite X1.
  unfold bind at 1. rewrite X2. reflexivity.
Qed.

Lemma server_no_document (req : Server.Request) (tr : list extcall) :
  Server.pdfFile req = None ->
  Server.post_analyze (Server.Uploaded req) tr
  = (respond 400 (error_only msg_pdf_required), tr).
Proof.
  intros H. unfold Server.post_analyze, Server.analyze_try. rewrite H.
  reflexivity.
Qed.

Lemma server_no_rubric (req : Server.Request) (f1 : Server.UploadedFile)
      (tr : list extcall) :
  Server.pdfFile req = Some f1 ->
  Server.rubricFile req = None ->
  Server.post_analyze (Server.Uploaded req) tr
  = (respond 400 (error_only msg_rubric_required), tr).
Proof.
  intros H1 H2. unfold Server.post_analyze, Server.analyze_try.
  rewrite H1, H2. reflexivity.
Qed.

Lemma server_paths (req : Server.Request) (tr : list extcall) :
  server_path req tr (Server.post_analyze (Server.Uploaded req) tr).
Proof.
  destruct (Server.pdfFile req) as [f1|] eqn:H1.
  2:{ rewrite (server_no_document req tr H1). constructor. exact H1. }
  destruct (Server.rubricFile req) as [f2|] eqn:H2.
  2:{ rewrite (server_no_rubric req f1 tr H1 H2).
      econstructor; eassumption. }
  destruct (Server.extractTextFromFile (Some f1) tr) as [[doc|m] tr1] eqn:X1.
  2:{ rewrite (server_document_fails req f1 f2 m tr tr1 H1 H2 X1).
      econstructor; eassumption. }
  destruct (Server.extractTextFromFile (Some f2) tr1) as [[rub|m] tr2] eqn:X2.
  2:{ rewrite (server_rubric_fails req f1 f2 doc m tr tr1 tr2 H1 H2 X1 X2).
      econstructor; eassumption. }
  rewrite (server_analyze_run req tr H1 H2 X1 X2).
  econstructor; eassumption.
Qed.
End HandlerPaths.

Section NetlifyPaths.
Context {E : Externals}.

Lemma netlify_post_run (event : Netlify.Event) (tr : list extcall) :
  Netlify.httpMethod event = lit "POST" ->
  Netlify.handler event tr
  = match Netlify.handler_try event tr with
    | (Ret response, tr') => (response, tr')
    | (Throw message, tr') => (respond 500 (error_failed message), tr')
    end.
Proof.
  intros Hm. unfold Netlify.handler. rewrite Hm.
  change (str_eqb (lit "POST") (lit "OPTIONS")) with false.
  change (str_eqb (lit "POST") (lit "POST")) with true.
  reflexivity.
Qed.

Lemma netlify_paths (event : Netlify.Event) (tr : list extcall) :
  netlify_path event tr (Netlify.handler event tr).
Proof.
  destruct (str_eqb (Netlify.httpMethod event) (lit "OPTIONS")) eqn:Ho.
  { unfold Netlify.handler. rewrite Ho. constructor.
    apply str_eqb_eq, Ho. }
  destruct (str_eqb (Netlify.httpMethod event) (lit "POST")) eqn:Hp.
  2:{ unfold Netlify.handler. rewrite Ho, Hp. simpl negb. cbv iota.
      constructor; intros H; apply str_eqb_eq in H; congruence. }
  apply str_eqb_eq in Hp.
  destruct (Netlify.parsed_body event) as [b|m] eqn:Hb.
  2:{ rewrite (netlify_post_run event tr Hp). unfold Netlify.handler_try.
      rewrite Hb. econstructor; eassumption. }
  destruct (Netlify.missing (Netlify.pdfFile b)) eqn:H1.
  { rewrite (netlify_post_run event tr Hp). unfold Netlify.handler_try.
    rewrite Hb, H1. eapply NNoDocument; eassumption. }
  destruct (Netlify.missing (Netlify.rubricFile b)) eqn:H2.
  { rewrite (netlify_post_run event tr Hp). unfold Netlify.handler_try.
    rewrite Hb, H1, H2. eapply NNoRubric; eassumption. }
  destruct (Netlify.extractTextFromFile
              (Netlify.content_of (Netlify.pdfFile b))
              (Netlify.filename_of (Netlify.pdfFile b)) tr)
    as [[doc|m] tr1] eqn:X1.
  2:{ rewrite (netlify_post_run event tr Hp). unfold Netlify.handler_try.
      rewrite Hb, H1, H2. unfold bind at 1. rewrite X1.
      eapply NDocumentFails; eassumption. }
  destruct (Netlify.extractTextFromFile
              (Netlify.content_of (Netlify.rubricFile b))
              (Netlify.filename_of (Netlify.rubricFile b)) tr1)
    as [[rub|m] tr2] eqn:X2.
  2:{ rewrite (netlify_post_run event tr Hp). unfold Netlify.handler_try.
      rewrite Hb, H1, H2. unfold bind at 1. rewrite X1.
      unfold bind at 1. rewrite X2.
      eapply NRubricFails; eassumption. }
  rewrite (netlify_handler_run event tr Hp Hb H1 H2 X1 X2).
  eapply NExtracted; eassumption.
Qed.
End NetlifyPaths.

(** ** Properties of the normalizer and of the handlers *)

(** X6. When the direct parse fails, the result of both shells is an
    object with the two members score and feedback, both strings.  The
    score is the same in both shells, is not empty and holds no double
    quote; it is Analysis Complete when the score pattern does not match.
    The feedback of the serverless function is never empty; the one of
    the server is not empty either unless it is taken from an array. *)
Theorem fallback_result_shape (E : Externals) (content : jsstring) :
  JSON_parse (Server.cleanContent content) = None ->
  exists score : jsstring,
    Server.normalizeResponse content
    = JObj [(lit "score", JStr score);
            (lit "feedback", JStr (Server.extractedFeedback content))]
    /\ Netlify.normalizeResponse content
       = JObj [(lit "score", JStr score);
               (lit "feedback", JStr (Netlify.extractedFeedback content))]
    /\ score <> [] /\ ~ In dquote score
    /\ (exec re_score content = None -> score = lit "Analysis Complete")
    /\ Netlify.extractedFeedback content <> []
    /\ (exec re_feedback content <> None
        \/ exec re_feedback_array content = None ->
        Server.extractedFeedback content <> []).
Proof.
  intros Hp. exists (Server.extractedScore content).
  split; [unfold Server.normalizeResponse; rewrite Hp; reflexivity|].
  split.
  { unfold Netlify.normalizeResponse, Netlify.cleanContent.
    fold (Server.cleanContent content). rewrite Hp. reflexivity. }
  unfold Server.extractedScore.
  destruct (exec re_score content) as [m|] eqn:Hs.
  - destruct (delimited_group _ _ _ _ _ Hs) as (g & -> & Hg & Hq).
    change (group1 [g]) with g.
    split; [exact Hg|]. split; [exact (forallb_is_not _ _ Hq)|].
    split; [discriminate|].
    split; [apply netlify_feedback_nonempty|apply server_feedback_nonempty].
  - split; [discriminate|].
    split; [vm_compute; intuition discriminate|].
    split; [reflexivity|].
    split; [apply netlify_feedback_nonempty|apply server_feedback_nonempty].
Qed.

Lemma fallback_result_shape_witness :
  JSON_parse (Externals := world_ok reply_short)
    (Server.cleanContent reply_short) = None
  /\ exists score : jsstring,
      Server.normalizeResponse (E := world_ok reply_short) reply_short
      = JObj [(lit "score", JStr score);
              (lit "feedback", JStr (Server.extractedFeedback reply_short))]
      /\ Netlify.normalizeResponse (E := world_ok reply_short) reply_short
         = JObj [(lit "score", JStr score);
                 (lit "feedback", JStr (Netlify.extractedFeedback reply_short))]
      /\ score <> [] /\ ~ In dquote score
      /\ (exec re_score reply_short = None -> score = lit "Analysis Complete")
      /\ Netlify.extractedFeedback reply_short <> []
      /\ (exec re_feedback reply_short <> None
          \/ exec re_feedback_array reply_short = None ->
          Server.extractedFeedback reply_short <> []).
Proof.
  split; [vm_compute; reflexivity|].
  apply (fallback_result_shape (world_ok reply_short) reply_short).
  vm_compute; reflexivity.
Defined.

Section CallEvents.
Context {E : Externals}.

Lemma server_call_events (documentText rubricText : jsstring)
      (customInstructions : option jsstring) (tr : list extcall) :
  snd (Server.callGeminiAPI documentText rubricText customInstructions tr) = tr
  \/ exists apiKey prompt,
      snd (Server.callGeminiAPI documentText rubricText customInstructions tr)
      = tr ++ [CallGenerate apiKey prompt].
Proof.
  rewrite server_call_run. destruct (truthy GEMINI_API_KEY); [right|left];
    [do 2 eexists|]; reflexivity.
Qed.

Lemma netlify_call_events (documentText rubricText : jsstring)
      (customInstructions : option jsstring) (tr : list extcall) :
  exists apiKey prompt,
    snd (Netlify.callGeminiAPI documentText rubricText customInstructions tr)
    = tr ++ [CallGenerate apiKey prompt].
Proof. rewrite netlify_call_run. do 2 eexists. reflexivity. Qed.
End CallEvents.

Lemma request_calls_none (tr : list extcall) : request_calls tr tr.
Proof.
  exists [], []. rewrite !app_nil_r. repeat split; auto.
Qed.

Lemma request_calls_one (tr l : list extcall) :
  length l <= 1 -> forallb not_generate l = true ->
  request_calls tr (tr ++ l).
Proof.
  intros Hl Hf. exists l, []. rewrite app_nil_r. repeat split; auto.
Qed.

Lemma request_calls_two (tr l1 l2 : list extcall) :
  length l1 <= 1 -> forallb not_generate l1 = true ->
  length l2 <= 1 -> forallb not_generate l2 = true ->
  request_calls tr ((tr ++ l1) ++ l2)
  /\ forall apiKey prompt,
      request_calls tr (((tr ++ l1) ++ l2) ++ [CallGenerate apiKey prompt]).
Proof.
  intros H1 F1 H2 F2. split; [|intros apiKey prompt].
  - exists (l1 ++ l2), []. rewrite app_nil_r, app_assoc.
    rewrite length_app, forallb_app, F1, F2. repeat split; auto. lia.
  - exists (l1 ++ l2), [CallGenerate apiKey prompt].
    rewrite length_app, forallb_app, F1, F2, !app_assoc.
    repeat split; eauto. lia.
Qed.

(** X7. No request makes either shell call the model twice, or call the
    extractors more than twice, and a call of the model comes after the
    calls of the extractors: there is no retry. *)
Theorem one_model_call_per_request (E : Externals) :
  (forall (inc : Server.Incoming) (tr : list extcall),
      request_calls tr (snd (Server.post_analyze inc tr)))
  /\ (forall (event : Netlify.Event) (tr : list extcall),
         request_calls tr (snd (Netlify.handler event tr))).
Proof.
  split.
  - intros [|req] tr; [apply request_calls_none|].
    generalize (server_paths req tr).
    generalize (Server.post_analyze (Server.Uploaded req) tr).
    intros out P.
    destruct P as [?|? ? ?|f1 f2 m tr1 ? ? X1|f1 f2 doc m tr1 tr2 ? ? X1 X2
                  |f1 f2 doc rub tr1 tr2 ? ? X1 X2];
      try apply request_calls_none.
    + apply server_extract_events in X1 as (l1 & -> & L1 & F1).
      apply request_calls_one; assumption.
    + apply server_extract_events in X1 as (l1 & -> & L1 & F1).
      apply server_extract_events in X2 as (l2 & -> & L2 & F2).
      apply (request_calls_two tr l1 l2); assumption.
    + apply server_extract_events in X1 as (l1 & -> & L1 & F1).
      apply server_extract_events in X2 as (l2 & -> & L2 & F2).
      destruct (request_calls_two tr l1 l2 L1 F1 L2 F2) as [R2 R3].
      destruct (is_empty (trim doc)); [exact R2|].
      destruct (is_empty (trim rub)); [exact R2|].
      destruct (server_call_events doc rub (Server.customInstructions req)
                  ((tr ++ l1) ++ l2)) as [Hc|(k & p & Hc)];
        destruct (Server.callGeminiAPI doc rub _ _) as [[res|m] tr3];
        cbn [snd] in *; subst tr3; auto.
  - intros event tr.
    generalize (netlify_paths event tr).
    generalize (Netlify.handler event tr).
    intros out P.
    destruct P as [?|? ?|? ? ?|? ? ? ?|? ? ? ? ?
                  |b m tr1 ? ? ? ? X1|b doc m tr1 tr2 ? ? ? ? X1 X2
                  |b doc rub tr1 tr2 ? ? ? ? X1 X2];
      try apply request_calls_none.
    + apply netlify_extract_events in X1 as (l1 & -> & L1 & F1).
      apply request_calls_one; assumption.
    + apply netlify_extract_events in X1 as (l1 & -> & L1 & F1).
      apply netlify_extract_events in X2 as (l2 & -> & L2 & F2).
      apply (request_calls_two tr l1 l2); assumption.
    + apply netlify_extract_events in X1 as (l1 & -> & L1 & F1).
      apply netlify_extract_events in X2 as (l2 & -> & L2 & F2).
      destruct (request_calls_two tr l1 l2 L1 F1 L2 F2) as [R2 R3].
      destruct (is_empty (trim doc)); [exact R2|].
      destruct (is_empty (trim rub)); [exact R2|].
      destruct (netlify_call_events doc rub (Netlify.customInstructions b)
                  ((tr ++ l1) ++ l2)) as (k & p & Hc);
        destruct (Netlify.callGeminiAPI doc rub _ _) as [[res|m] tr3];
        cbn [snd] in *; subst tr3; auto.
Qed.

Lemma nonblank_nonempty (s : jsstring) :
  is_empty (trim s) = false -> trim s <> [] /\ 0 < length s.
Proof.
  intros H. split; [intros Ht; rewrite Ht in H; discriminate|].
  destruct s; [discriminate|simpl; lia].
Qed.

(** Refutes an equation between two responses of different status or
    with different messages. *)
Ltac response_mismatch H :=
  first [ apply (f_equal statusCode) in H; cbn in H; lia
        | apply (f_equal body) in H; vm_compute in H; discriminate ].

(** X8. A response with status 200 to a POST is only given after the
    model has replied to the one call made for the request: its result
    is the normalized reply, both extracted texts are non-blank, so the
    two lengths of the metadata are positive, and (on the server) a key
    is configured. *)
Theorem success_only_after_model_reply (E : Externals) :
  (forall (inc : Server.Incoming) (tr : list extcall),
      statusCode (fst (Server.post_analyze inc tr)) = 200 ->
      exists (req : Server.Request) (documentText rubricText content : jsstring)
             (tr2 : list extcall),
        inc = Server.Uploaded req
        /\ truthy GEMINI_API_KEY = true
        /\ generateContent_lib (or_else GEMINI_API_KEY [])
             (Server.prompt documentText rubricText
                (Server.customInstructions req)) = Ret content
        /\ Server.post_analyze inc tr
           = (respond 200
                (success_members (Server.normalizeResponse content)
                   documentText rubricText now_iso),
              tr2 ++ [CallGenerate (or_else GEMINI_API_KEY [])
                        (Server.prompt documentText rubricText
                           (Server.customInstructions req))])
        /\ trim documentText <> [] /\ trim rubricText <> []
        /\ 0 < length documentText /\ 0 < length rubricText)
  /\
  (forall (event : Netlify.Event) (tr : list extcall),
      Netlify.httpMethod event = lit "POST" ->
      statusCode (fst (Netlify.handler event tr)) = 200 ->
      exists (b : Netlify.Body) (documentText rubricText content : jsstring)
             (tr2 : list extcall),
        Netlify.parsed_body event = Ret b
        /\ generateContent_lib (or_else GEMINI_API_KEY Netlify.default_key)
             (Netlify.prompt documentText rubricText
                (Netlify.customInstructions b)) = Ret content
        /\ Netlify.handler event tr
           = (respond 200
                (success_members (Netlify.normalizeResponse content)
                   documentText rubricText now_iso),
              tr2 ++ [CallGenerate (or_else GEMINI_API_KEY Netlify.default_key)
                        (Netlify.prompt documentText rubricText
                           (Netlify.customInstructions b))])
        /\ trim documentText <> [] /\ trim rubricText <> []
        /\ 0 < length documentText /\ 0 < length rubricText).
Proof.
  split.
  - intros [|req] tr; [intros Hst; cbn in Hst; lia|].
    generalize (server_paths req tr).
    generalize (Server.post_analyze (Server.Uploaded req) tr).
    intros out P.
    destruct P as [?|? ? ?|? ? ? ? ? ? ?|? ? ? ? ? ? ? ? ? ?
                  |f1 f2 doc rub tr1 tr2 ? ? X1 X2];
      try (intros Hst; cbn in Hst; lia).
    destruct (is_empty (trim doc)) eqn:Hd; [intros Hst; cbn in Hst; lia|].
    destruct (is_empty (trim rub)) eqn:Hr; [intros Hst; cbn in Hst; lia|].
    rewrite server_call_run. cbv zeta.
    destruct (truthy GEMINI_API_KEY) eqn:Hk; [|intros Hst; cbn in Hst; lia].
    destruct (generateContent_lib _ _) as [content|m] eqn:Hg;
      [|intros Hst; cbn in Hst; lia].
    intros _. exists req, doc, rub, content, tr2.
    destruct (nonblank_nonempty _ Hd), (nonblank_nonempty _ Hr).
    repeat split; auto.
  - intros event tr Hm.
    generalize (netlify_paths event tr).
    generalize (Netlify.handler event tr).
    intros out P.
    destruct P as [Ho|? ?|? ? ?|? ? ? ?|? ? ? ? ?
                  |? ? ? ? ? ? ? ?|? ? ? ? ? ? ? ? ? ? ?
                  |b doc rub tr1 tr2 ? Hb ? ? X1 X2];
      try (intros Hst; cbn in Hst; lia).
    { rewrite Hm in Ho. discriminate. }
    destruct (is_empty (trim doc)) eqn:Hd; [intros Hst; cbn in Hst; lia|].
    destruct (is_empty (trim rub)) eqn:Hr; [intros Hst; cbn in Hst; lia|].
    rewrite netlify_call_run. cbv zeta.
    destruct (generateContent_lib _ _) as [content|m] eqn:Hg;
      [|intros Hst; cbn in Hst; lia].
    intros _. exists b, doc, rub, content, tr2.
    destruct (nonblank_nonempty _ Hd), (nonblank_nonempty _ Hr).
    repeat split; auto.
Qed.

Lemma success_only_after_model_reply_witness :
  statusCode (fst (Server.post_analyze (E := world_ok reply_fenced)
                     (Server.Uploaded (request essay_pdf rubric_txt)) []))
  = 200
  /\ exists (req : Server.Request) (documentText rubricText content : jsstring)
            (tr2 : list extcall),
      Server.Uploaded (request essay_pdf rubric_txt) = Server.Uploaded req
      /\ truthy (GEMINI_API_KEY (Externals := world_ok reply_fenced)) = true
      /\ generateContent_lib (Externals := world_ok reply_fenced)
           (or_else (GEMINI_API_KEY (Externals := world_ok reply_fenced)) [])
           (Server.prompt documentText rubricText
              (Server.customInstructions req)) = Ret content
      /\ Server.post_analyze (E := world_ok reply_fenced)
           (Server.Uploaded (request essay_pdf rubric_txt)) []
         = (respond 200
              (success_members
                 (Server.normalizeResponse (E := world_ok reply_fenced) content)
                 documentText rubricText
                 (now_iso (Externals := world_ok reply_fenced))),
            tr2 ++ [CallGenerate
                      (or_else
                         (GEMINI_API_KEY (Externals := world_ok reply_fenced))
                         [])
                      (Server.prompt documentText rubricText
                         (Server.customInstructions req))])
      /\ trim documentText <> [] /\ trim rubricText <> []
      /\ 0 < length documentText /\ 0 < length rubricText.
Proof.
  split; [vm_compute; reflexivity|].
  apply (proj1 (success_only_after_model_reply (world_ok reply_fenced))).
  vm_compute; reflexivity.
Defined.

(** X9. The serverless handler answers 405 exactly to the methods other
    than OPTIONS and POST, and without a body exactly to OPTIONS; in both
    cases, whatever the body of the request, nothing is parsed and no
    library is called.  The names of the methods are compared as they
    are, without folding the case. *)
Theorem netlify_method_gate (E : Externals) (event : Netlify.Event)
        (tr : list extcall) :
  (statusCode (fst (Netlify.handler event tr)) = 405
   <-> Netlify.httpMethod event <> lit "OPTIONS"
       /\ Netlify.httpMethod event <> lit "POST")
  /\ (body (fst (Netlify.handler event tr)) = None
      <-> Netlify.httpMethod event = lit "OPTIONS")
  /\ (Netlify.httpMethod event <> lit "POST" ->
      snd (Netlify.handler event tr) = tr
      /\ (fst (Netlify.handler event tr) = {| statusCode := 200; body := None |}
          \/ fst (Netlify.handler event tr)
             = respond 405 (error_only (lit "Method not allowed")))).
Proof.
  generalize (netlify_paths event tr).
  generalize (Netlify.handler event tr).
  intros out P.
  assert (Hop : lit "OPTIONS" <> lit "POST") by discriminate.
  destruct P as [Ho|Ho Hp|m Hp ?|b Hp ? ?|b Hp ? ? ?
                |b m tr1 Hp ? ? ? X1|b doc m tr1 tr2 Hp ? ? ? X1 X2
                |b doc rub tr1 tr2 Hp ? ? ? X1 X2];
    try (destruct (is_empty (trim doc));
         [|destruct (is_empty (trim rub));
           [|destruct (Netlify.callGeminiAPI doc rub _ tr2)
               as [[res|m] tr3]]]);
    (split; [split; intros Hst|split; [split; intros Hst|intros Hst]]);
    solve [ assumption | reflexivity | congruence
          | cbn in Hst; lia | cbn in Hst; discriminate
          | destruct Hst; congruence
          | split; assumption
          | split; [reflexivity|left; reflexivity]
          | split; [reflexivity|right; reflexivity] ].
Qed.

Lemma netlify_method_gate_witness :
  Netlify.httpMethod get_request <> lit "POST"
  /\ snd (Netlify.handler (E := world_ok reply_fenced) get_request []) = []
  /\ (fst (Netlify.handler (E := world_ok reply_fenced) get_request [])
      = {| statusCode := 200; body := None |}
      \/ fst (Netlify.handler (E := world_ok reply_fenced) get_request [])
         = respond 405 (error_only (lit "Method not allowed"))).
Proof.
  assert (H : Netlify.httpMethod get_request <> lit "POST") by discriminate.
  split; [exact H|].
  exact (proj2 (proj2 (netlify_method_gate (world_ok reply_fenced)
                         get_request [])) H).
Defined.

(** X10. The answer PDF file is required (status 400) is given exactly
    when the document is missing, and Rubric file is required exactly
    when the document is there and the rubric is missing; in both cases
    no library is called.  For the serverless function a file is missing
    when it is absent or has an empty content or an empty name. *)
Theorem missing_file_answers (E : Externals) :
  (forall (req : Server.Request) (tr : list extcall),
      (fst (Server.post_analyze (Server.Uploaded req) tr)
       = respond 400 (error_only (lit "PDF file is required"))
       <-> Server.pdfFile req = None)
      /\ (fst (Server.post_analyze (Server.Uploaded req) tr)
          = respond 400 (error_only (lit "Rubric file is required"))
          <-> Server.pdfFile req <> None /\ Server.rubricFile req = None)
      /\ (Server.pdfFile req = None \/ Server.rubricFile req = None ->
          snd (Server.post_analyze (Server.Uploaded req) tr) = tr))
  /\
  (forall (event : Netlify.Event) (b : Netlify.Body) (tr : list extcall),
      Netlify.httpMethod event = lit "POST" ->
      Netlify.parsed_body event = Ret b ->
      (fst (Netlify.handler event tr)
       = respond 400 (error_only (lit "PDF file is required"))
       <-> Netlify.missing (Netlify.pdfFile b) = true)
      /\ (fst (Netlify.handler event tr)
          = respond 400 (error_only (lit "Rubric file is required"))
          <-> Netlify.missing (Netlify.pdfFile b) = false
              /\ Netlify.missing (Netlify.rubricFile b) = true)
      /\ (Netlify.missing (Netlify.pdfFile b) = true
          \/ Netlify.missing (Netlify.rubricFile b) = true ->
          snd (Netlify.handler event tr) = tr)).
Proof.
  split.
  - intros req tr.
    generalize (server_paths req tr).
    generalize (Server.post_analyze (Server.Uploaded req) tr).
    intros out P.
    destruct P as [H1|f1 H1 H2|f1 f2 m tr1 H1 H2 X1
                  |f1 f2 doc m tr1 tr2 H1 H2 X1 X2
                  |f1 f2 doc rub tr1 tr2 H1 H2 X1 X2];
      try (destruct (is_empty (trim doc));
           [|destruct (is_empty (trim rub));
             [|destruct (Server.callGeminiAPI doc rub _ tr2)
                 as [[res|m] tr3]]]);
      cbn [fst snd];
      (split; [split; intros Hst|split; [split; intros Hst|intros Hst]]);
      solve [ assumption | reflexivity | congruence
            | response_mismatch Hst
            | destruct Hst; congruence
            | split; congruence ].
  - intros event b tr Hm Hb.
    assert (Hop : lit "OPTIONS" <> lit "POST") by discriminate.
    generalize (netlify_paths event tr).
    generalize (Netlify.handler event tr).
    intros out P.
    destruct P as [Ho|Ho Hp|m Hp Hb'|b' Hp Hb' H1|b' Hp Hb' H1 H2
                  |b' m tr1 Hp Hb' H1 H2 X1
                  |b' doc m tr1 tr2 Hp Hb' H1 H2 X1 X2
                  |b' doc rub tr1 tr2 Hp Hb' H1 H2 X1 X2];
      try congruence;
      rewrite Hb in Hb'; injection Hb' as <-;
      try (destruct (is_empty (trim doc));
           [|destruct (is_empty (trim rub));
             [|destruct (Netlify.callGeminiAPI doc rub _ tr2)
                 as [[res|m] tr3]]]);
      cbn [fst snd];
      (split; [split; intros Hst|split; [split; intros Hst|intros Hst]]);
      solve [ assumption | reflexivity | congruence
            | response_mismatch Hst
            | destruct Hst; congruence
            | split; congruence ].
Qed.

Lemma missing_file_answers_witness :
  (Server.pdfFile only_document <> None
   /\ Server.rubricFile only_document = None)
  /\ fst (Server.post_analyze (E := world_broken)
            (Server.Uploaded only_document) [])
     = respond 400 (error_only (lit "Rubric file is required"))
  /\ snd (Server.post_analyze (E := world_broken)
            (Server.Uploaded only_document) []) = [].
Proof.
  assert (H : Server.pdfFile only_document <> None
              /\ Server.rubricFile only_document = None)
    by (split; [discriminate|reflexivity]).
  split; [exact H|].
  destruct (proj1 (missing_file_answers world_broken) only_document [])
    as (_ & Hr & Ht).
  split; [exact (proj2 Hr H)|exact (Ht (or_intror (proj2 H)))].
Defined.

(** X11. On the server, a request whose two texts are extracted and
    non-blank is answered, when GEMINI_API_KEY is unset or empty, with
    status 500 and the message that the key is not configured; the two
    files have been parsed by then, and the model is not called. *)
Theorem server_without_key (E : Externals) (req : Server.Request)
        (f1 f2 : Server.UploadedFile) (documentText rubricText : jsstring)
        (tr tr1 tr2 : list extcall) :
  Server.pdfFile req = Some f1 ->
  Server.rubricFile req = Some f2 ->
  Server.extractTextFromFile (Some f1) tr = (Ret documentText, tr1) ->
  Server.extractTextFromFile (Some f2) tr1 = (Ret rubricText, tr2) ->
  is_empty (trim documentText) = false ->
  is_empty (trim rubricText) = false ->
  truthy GEMINI_API_KEY = false ->
  Server.post_analyze (Server.Uploaded req) tr
  = (respond 500 [(lit "error",
                    JStr (lit "Gemini API key not configured on server"));
                  (lit "success", JBool false)], tr2)
  /\ filter is_generate tr2 = filter is_generate tr.
Proof.
  intros H1 H2 X1 X2 Hd Hr Hk.
  rewrite (server_analyze_run req tr H1 H2 X1 X2), Hd, Hr.
  rewrite server_call_run, Hk. split; [reflexivity|].
  rewrite (server_extract_trace _ _ X2). exact (server_extract_trace _ _ X1).
Qed.

Lemma server_without_key_witness :
  truthy (GEMINI_API_KEY (Externals := world_no_key)) = false
  /\ Server.post_analyze (E := world_no_key)
       (Server.Uploaded (request essay_pdf rubric_txt)) []
     = (respond 500 [(lit "error",
                       JStr (lit "Gemini API key not configured on server"));
                     (lit "success", JBool false)],
        [CallPdfParse (bytes "%PDF-1.4")])
  /\ filter is_generate [CallPdfParse (bytes "%PDF-1.4")]
     = filter is_generate [].
Proof.
  split; [reflexivity|].
  exact (server_without_key world_no_key (request essay_pdf rubric_txt)
           essay_pdf rubric_txt (lit "Hello") (lit "Clarity: 5 points")
           [] [CallPdfParse (bytes "%PDF-1.4")]
           [CallPdfParse (bytes "%PDF-1.4")]
           eq_refl eq_refl eq_refl eq_refl eq_refl eq_refl eq_refl).
Defined.

(** X12. The two extractions run one after the other and before every
    check of the texts.  When the extraction of the document throws, the
    answer is status 500 with its message and the rubric is handed to no
    library; when the extraction of the rubric throws, the answer is
    status 500 with its message even if the text of the document is
    blank: the 400 for a blank document is only given once the rubric is
    extracted. *)
Theorem extraction_failure_comes_first (E : Externals) :
  (forall (req : Server.Request) (f1 f2 : Server.UploadedFile)
          (message : jsstring) (tr tr1 : list extcall),
      Server.pdfFile req = Some f1 ->
      Server.rubricFile req = Some f2 ->
      Server.extractTextFromFile (Some f1) tr = (Throw message, tr1) ->
      Server.post_analyze (Server.Uploaded req) tr
      = (respond 500 [(lit "error", JStr message);
                      (lit "success", JBool false)], tr1)
      /\ exists l, tr1 = tr ++ l /\ length l <= 1)
  /\
  (forall (req : Server.Request) (f1 f2 : Server.UploadedFile)
          (documentText message : jsstring) (tr tr1 tr2 : list extcall),
      Server.pdfFile req = Some f1 ->
      Server.rubricFile req = Some f2 ->
      Server.extractTextFromFile (Some f1) tr = (Ret documentText, tr1) ->
      Server.extractTextFromFile (Some f2) tr1 = (Throw message, tr2) ->
      Server.post_analyze (Server.Uploaded req) tr
      = (respond 500 [(lit "error", JStr message);
                      (lit "success", JBool false)], tr2))
  /\
  (forall (event : Netlify.Event) (b : Netlify.Body) (message : jsstring)
          (tr tr1 : list extcall),
      Netlify.httpMethod event = lit "POST" ->
      Netlify.parsed_body event = Ret b ->
      Netlify.missing (Netlify.pdfFile b) = false ->
      Netlify.missing (Netlify.rubricFile b) = false ->
      Netlify.extractTextFromFile (Netlify.content_of (Netlify.pdfFile b))
        (Netlify.filename_of (Netlify.pdfFile b)) tr = (Throw message, tr1) ->
      Netlify.handler event tr
      = (respond 500 [(lit "error", JStr message);
                      (lit "success", JBool false)], tr1)
      /\ exists l, tr1 = tr ++ l /\ length l <= 1)
  /\
  (forall (event : Netlify.Event) (b : Netlify.Body)
          (documentText message : jsstring) (tr tr1 tr2 : list extcall),
      Netlify.httpMethod event = lit "POST" ->
      Netlify.parsed_body event = Ret b ->
      Netlify.missing (Netlify.pdfFile b) = false ->
      Netlify.missing (Netlify.rubricFile b) = false ->
      Netlify.extractTextFromFile (Netlify.content_of (Netlify.pdfFile b))
        (Netlify.filename_of (Netlify.pdfFile b)) tr = (Ret documentText, tr1) ->
      Netlify.extractTextFromFile (Netlify.content_of (Netlify.rubricFile b))
        (Netlify.filename_of (Netlify.rubricFile b)) tr1 = (Throw message, tr2) ->
      Netlify.handler event tr
      = (respond 500 [(lit "error", JStr message);
                      (lit "success", JBool false)], tr2)).
Proof.
  split; [|split; [|split]].
  - intros req f1 f2 m tr tr1 H1 H2 X1.
    split; [exact (server_document_fails req f1 f2 m tr tr1 H1 H2 X1)|].
    destruct (server_extract_events _ _ _ _ X1) as (l & Hl & Hn & _). eauto.
  - intros req f1 f2 doc m tr tr1 tr2 H1 H2 X1 X2.
    exact (server_rubric_fails req f1 f2 doc m tr tr1 tr2 H1 H2 X1 X2).
  - intros event b m tr tr1 Hm Hb H1 H2 X1.
    rewrite (netlify_post_run event tr Hm). unfold Netlify.handler_try.
    rewrite Hb, H1, H2. unfold bind at 1. rewrite X1.
    split; [reflexivity|].
    destruct (netlify_extract_events _ _ _ _ _ X1) as (l & Hl & Hn & _).
    eauto.
  - intros event b doc m tr tr1 tr2 Hm Hb H1 H2 X1 X2.
    rewrite (netlify_post_run event tr Hm). unfold Netlify.handler_try.
    rewrite Hb, H1, H2. unfold bind at 1. rewrite X1.
    unfold bind at 1. rewrite X2. reflexivity.
Qed.

Lemma extraction_failure_comes_first_witness :
  is_empty (trim (lit "   ")) = true
  /\ Server.post_analyze (E := world_broken)
       (Server.Uploaded (request blank_txt rubric_docx)) []
     = (respond 500
          [(lit "error",
             JStr (lit "Failed to parse DOCX: Could not find file in options"));
           (lit "success", JBool false)],
        [CallMammoth (bytes "PK")])
  /\ Netlify.handler (E := world_broken) (post blank_txt64 rubric_docx64) []
     = (respond 500
          [(lit "error", JStr (lit "Could not find file in options"));
           (lit "success", JBool false)],
        [CallMammoth (bytes "PK")]).
Proof.
  split; [reflexivity|].
  destruct (extraction_failure_comes_first world_broken) as (_ & HS & _ & HN).
  split.
  - exact (HS (request blank_txt rubric_docx) blank_txt rubric_docx
             (lit "   ")
             (lit "Failed to parse DOCX: Could not find file in options")
             [] [] [CallMammoth (bytes "PK")]
             eq_refl eq_refl eq_refl eq_refl).
  - exact (HN (post blank_txt64 rubric_docx64)
             {| Netlify.pdfFile := Some blank_txt64;
                Netlify.rubricFile := Some rubric_docx64;
                Netlify.customInstructions := None |}
             (lit "   ") (lit "Could not find file in options")
             [] [] [CallMammoth (bytes "PK")]
             eq_refl eq_refl eq_refl eq_refl eq_refl eq_refl).
Defined.

(** X13. In a request that has both files, a document whose name has
    none of the three suffixes is answered with status 500, not 400, and
    the unsupported-format message; nothing is parsed, the rubric
    included.  When the rubric is missing, the answer is the 400 that
    asks for the rubric, whatever the name of the document, and nothing
    is parsed either. *)
Theorem unsupported_document_is_a_500 (E : Externals) :
  (forall (req : Server.Request) (f1 f2 : Server.UploadedFile) (buf : Buffer)
          (tr : list extcall),
      Server.pdfFile req = Some f1 ->
      Server.rubricFile req = Some f2 ->
      Server.buffer f1 = Some buf ->
      endsWith (toLowerCase (Server.originalname f1)) (lit ".pdf") = false ->
      endsWith (toLowerCase (Server.originalname f1)) (lit ".docx") = false ->
      endsWith (toLowerCase (Server.originalname f1)) (lit ".txt") = false ->
      Server.post_analyze (Server.Uploaded req) tr
      = (respond 500
           [(lit "error",
              JStr (lit "Unsupported file format. "
                    ++ lit "Please use PDF, DOCX, or TXT files."));
            (lit "success", JBool false)], tr))
  /\
  (forall (event : Netlify.Event) (b : Netlify.Body) (tr : list extcall),
      Netlify.httpMethod event = lit "POST" ->
      Netlify.parsed_body event = Ret b ->
      Netlify.missing (Netlify.pdfFile b) = false ->
      Netlify.missing (Netlify.rubricFile b) = false ->
      endsWith (toLowerCase (Netlify.filename_of (Netlify.pdfFile b)))
        (lit ".pdf") = false ->
      endsWith (toLowerCase (Netlify.filename_of (Netlify.pdfFile b)))
        (lit ".docx") = false ->
      endsWith (toLowerCase (Netlify.filename_of (Netlify.pdfFile b)))
        (lit ".txt") = false ->
      Netlify.handler event tr
      = (respond 500
           [(lit "error",
              JStr (lit "Unsupported file format. "
                    ++ lit "Please use PDF, DOCX, or TXT files."));
            (lit "success", JBool false)], tr))
  /\
  (forall (req : Server.Request) (f1 : Server.UploadedFile)
          (tr : list extcall),
      Server.pdfFile req = Some f1 ->
      Server.rubricFile req = None ->
      Server.post_analyze (Server.Uploaded req) tr
      = (respond 400 [(lit "error", JStr (lit "Rubric file is required"))],
         tr))
  /\
  (forall (event : Netlify.Event) (b : Netlify.Body) (tr : list extcall),
      Netlify.httpMethod event = lit "POST" ->
      Netlify.parsed_body event = Ret b ->
      Netlify.missing (Netlify.pdfFile b) = false ->
      Netlify.missing (Netlify.rubricFile b) = true ->
      Netlify.handler event tr
      = (respond 400 [(lit "error", JStr (lit "Rubric file is required"))],
         tr)).
Proof.
  split; [|split; [|split]].
  - intros req f1 f2 buf tr H1 H2 Hb Hp Hd Ht.
    apply (server_document_fails req f1 f2 msg_unsupported tr tr H1 H2).
    rewrite (server_extract_cases f1 tr Hb). cbv zeta.
    rewrite Hp, Hd, Ht. reflexivity.
  - intros event b tr Hm Hb H1 H2 Hp Hd Ht.
    rewrite (netlify_post_run event tr Hm). unfold Netlify.handler_try.
    rewrite Hb, H1, H2. unfold bind at 1.
    assert (Hf : truthy (Netlify.content_of (Netlify.pdfFile b)) = true).
    { unfold Netlify.missing in H1. unfold Netlify.content_of.
      destruct (Netlify.pdfFile b) as [f|]; [|discriminate].
      apply orb_false_iff in H1 as [H _].
      apply negb_false_iff in H. exact H. }
    rewrite (netlify_extract_cases _ _ tr Hf). cbv zeta.
    rewrite Hp, Hd, Ht. reflexivity.
  - intros req f1 tr H1 H2. exact (server_no_rubric req f1 tr H1 H2).
  - intros event b tr Hm Hb H1 H2.
    rewrite (netlify_post_run event tr Hm). unfold Netlify.handler_try.
    rewrite Hb, H1, H2. reflexivity.
Qed.

Lemma unsupported_document_is_a_500_witness :
  Server.post_analyze (E := world_ok reply_fenced)
    (Server.Uploaded (request picture_png rubric_txt)) []
  = (respond 500
       [(lit "error",
          JStr (lit "Unsupported file format. "
                ++ lit "Please use PDF, DOCX, or TXT files."));
        (lit "success", JBool false)], [])
  /\ Netlify.handler (E := world_ok reply_fenced)
       (post picture_png64 rubric_txt64) []
     = (respond 500
          [(lit "error",
             JStr (lit "Unsupported file format. "
                   ++ lit "Please use PDF, DOCX, or TXT files."));
           (lit "success", JBool false)], [])
  /\ Server.post_analyze (E := world_ok reply_fenced)
       (Server.Uploaded only_picture) []
     = (respond 400 [(lit "error", JStr (lit "Rubric file is required"))], [])
  /\ Netlify.handler (E := world_ok reply_fenced) post_only_picture []
     = (respond 400 [(lit "error", JStr (lit "Rubric file is required"))], []).
Proof.
  destruct (unsupported_document_is_a_500 (world_ok reply_fenced))
    as (HS & HN & RS & RN).
  split; [|split; [|split]].
  - exact (HS (request picture_png rubric_txt) picture_png rubric_txt
             (bytes "PNG") [] eq_refl eq_refl eq_refl eq_refl eq_refl eq_refl).
  - exact (HN (post picture_png64 rubric_txt64)
             {| Netlify.pdfFile := Some picture_png64;
                Netlify.rubricFile := Some rubric_txt64;
                Netlify.customInstructions := None |}
             [] eq_refl eq_refl eq_refl eq_refl eq_refl eq_refl eq_refl).
  - exact (RS only_picture picture_png [] eq_refl eq_refl).
  - exact (RN post_only_picture
             {| Netlify.pdfFile := Some picture_png64;
                Netlify.rubricFile := None;
                Netlify.customInstructions := None |}
             [] eq_refl eq_refl eq_refl eq_refl).
Defined.

(** ** The two prompts *)

(** Evaluates the lengths of the literals of the goal. *)
Ltac eval_literal_lengths :=
  repeat match goal with
         | |- context [length (lit ?w)] =>
             let n := eval vm_compute in (length (lit w)) in
             change (length (lit w)) with n
         end.

Lemma prompt_template_length
      (sep rubricText documentText instructions : jsstring) :
  length (prompt_template sep rubricText documentText instructions)
  = 414 + 3 * length sep + length rubricText + length documentText
    + length instructions.
Proof.
  unfold prompt_template.
  repeat (rewrite length_app || rewrite length_cons).
  eval_literal_lengths. cbn [length]. lia.
Qed.

(** X14. For the same texts and instructions the two shells never send
    the same prompt: the one of the serverless function is three code
    units longer, its sample feedback holding a backslash and the letter
    n where the one of the server holds a line feed. *)
Theorem prompts_of_the_shells_differ (documentText rubricText : jsstring)
        (customInstructions : option jsstring) :
  length (Netlify.prompt documentText rubricText customInstructions)
  = 3 + length (Server.prompt documentText rubricText customInstructions)
  /\ Netlify.prompt documentText rubricText customInstructions
     <> Server.prompt documentText rubricText customInstructions.
Proof.
  assert (H : length (Netlify.prompt documentText rubricText customInstructions)
              = 3 + length (Server.prompt documentText rubricText
                              customInstructions)).
  { unfold Netlify.prompt, Server.prompt. rewrite !prompt_template_length.
    cbn [length]. lia. }
  split; [exact H|]. intros Heq. rewrite Heq in H. lia.
Qed.
